(** * Weather Report App: a shallow embedding of [app.py]

    The Streamlit script is embedded function by function.  Python values
    are typed the way the script reads them: a dictionary is an association
    list looked up with [dict_get], [None] is [option]'s [None], an
    exception is the [Exc] outcome of the small effect monad [prog], and
    every Streamlit call or HTTP request is an [event] appended to the trace
    of the run. *)

From Stdlib Require Import String Ascii List ZArith QArith Bool Lia.
From Stdlib Require Import DecimalString.
Import ListNotations.
Open Scope string_scope.
Open Scope Z_scope.

(** ** Python values *)

(** The exceptions the script can meet.  The three transport exceptions
    come from [requests]; the others are raised by built-ins and pandas. *)
Inductive exn : Type :=
| RequestException (msg : string)
| HTTPError (status : Z)
| JSONDecodeError
| TypeError
| ValueError
| KeyError
| IndexError.

Inductive result (A : Type) : Type :=
| Ok (a : A)
| Raise (e : exn).
Arguments Ok {A} a.
Arguments Raise {A} e.

(** A JSON scalar as [json.loads] hands it over: [null], a number (every
    finite float and every int is a rational) or a string. *)
Inductive cell : Type :=
| CNull
| CNum (q : Q)
| CStr (s : string).

(** [Dict[str, V]] read with [d.get(k)] and [d.get(k, default)]. *)
Definition dict (V : Type) : Type := list (string * V).

Fixpoint dict_get {V : Type} (k : string) (d : dict V) : option V :=
  match d with
  | [] => None
  | (k', v) :: d' => if String.eqb k k' then Some v else dict_get k d'
  end.

Definition dict_get_default {V : Type} (k : string) (default : V) (d : dict V) : V :=
  match dict_get k d with
  | Some v => v
  | None => default
  end.

(** [bool(d)] for a dictionary or a list: empty containers are falsy. *)
Definition nonempty {A : Type} (l : list A) : bool :=
  match l with
  | [] => false
  | _ :: _ => true
  end.

(** [bool(s)] for a string. *)
Definition str_truthy (s : string) : bool :=
  match s with
  | EmptyString => false
  | String _ _ => true
  end.

(** [str(x)] inside an f-string, for a value that is a string or [None]. *)
Definition py_str (o : option string) : string :=
  match o with
  | Some s => s
  | None => "None"
  end.

(** [x or ''] for a value that is a string or [None]. *)
Definition or_empty (o : option string) : string :=
  match o with
  | Some s => s
  | None => ""
  end.

(** ** [str.strip()]

    Strings are UTF-8 byte strings.  [str.strip()] removes the characters
    for which [str.isspace()] holds; they are listed by their encodings. *)

Definition bytes (l : list nat) : list ascii := map ascii_of_nat l.

Definition WHITESPACE : list (list ascii) :=
  map bytes
    [ [9]; [10]; [11]; [12]; [13]; [28]; [29]; [30]; [31]; [32];
      [194; 133]; [194; 160];
      [225; 154; 128];
      [226; 128; 128]; [226; 128; 129]; [226; 128; 130]; [226; 128; 131];
      [226; 128; 132]; [226; 128; 133]; [226; 128; 134]; [226; 128; 135];
      [226; 128; 136]; [226; 128; 137]; [226; 128; 138];
      [226; 128; 168]; [226; 128; 169]; [226; 128; 175];
      [226; 129; 159];
      [227; 128; 128] ]%nat.

(** [drop_prefix p s] is [Some r] when [s = p ++ r]. *)
Fixpoint drop_prefix (p s : list ascii) : option (list ascii) :=
  match p, s with
  | [], _ => Some s
  | _ :: _, [] => None
  | a :: p', b :: s' => if Ascii.eqb a b then drop_prefix p' s' else None
  end.

Fixpoint drop_first (encodings : list (list ascii)) (s : list ascii)
  : option (list ascii) :=
  match encodings with
  | [] => None
  | p :: rest =>
      match drop_prefix p s with
      | Some r => Some r
      | None => drop_first rest s
      end
  end.

(** Removes leading characters of [encodings]; every removal shortens the
    string, so [length s] rounds are enough. *)
Fixpoint lstrip_rounds (rounds : nat) (encodings : list (list ascii))
  (s : list ascii) : list ascii :=
  match rounds with
  | O => s
  | S n =>
      match drop_first encodings s with
      | Some r => lstrip_rounds n encodings r
      | None => s
      end
  end.

Definition lstrip_bytes (encodings : list (list ascii)) (s : list ascii) : list ascii :=
  lstrip_rounds (List.length s) encodings s.

Definition strip (s : string) : string :=
  let left := lstrip_bytes WHITESPACE (list_ascii_of_string s) in
  let right := lstrip_bytes (map (@rev ascii) WHITESPACE) (rev left) in
  string_of_list_ascii (rev right).

(** ** Fixed-point formatting: the format spec [.Nf]

    CPython rounds the exact value of the float to [prec] decimals, ties to
    even, and keeps the sign of the argument. *)

Definition round_half_even (n : Z) (d : positive) : Z :=
  let q := n / Z.pos d in
  let r := n mod Z.pos d in
  if 2 * r <? Z.pos d then q
  else if Z.pos d <? 2 * r then q + 1
  else if Z.even q then q else q + 1.

Definition decimal (n : Z) : string :=
  NilZero.string_of_uint (N.to_uint (Z.to_N n)).

Definition digit_char (d : Z) : ascii :=
  ascii_of_nat (48 + Z.to_nat (d mod 10)).

(** The last [n] decimal digits of [v], leading zeros included. *)
Fixpoint digits_fixed (n : nat) (v : Z) : string :=
  match n with
  | O => ""
  | S n' => digits_fixed n' (v / 10) ++ String (digit_char v) ""
  end.

Definition fixed (prec : nat) (x : Q) : string :=
  let unit := 10 ^ Z.of_nat prec in
  let scaled := round_half_even (Z.abs (Qnum x) * unit) (Qden x) in
  (if Qnum x <? 0 then "-" else "")
    ++ decimal (scaled / unit)
    ++ (match prec with
        | O => ""
        | S _ => "." ++ digits_fixed prec (scaled mod unit)
        end).

(** [f"{v:.Nf}"] where [v] came out of [dict.get]: [None] has no such
    format and raises [TypeError].  Numbers are those a float holds; a JSON
    integer too large for a float is outside the model. *)
Definition format_f (prec : nat) (v : option Q) : result string :=
  match v with
  | Some x => Ok (fixed prec x)
  | None => Raise TypeError
  end.

(** ** Weather codes *)

Definition GEOCODING_URL : string := "https://geocoding-api.open-meteo.com/v1/search".
Definition FORECAST_URL : string := "https://api.open-meteo.com/v1/forecast".

Definition WEATHER_CODE_MAP : list (Z * (string * string)) :=
  [ (0, ("Clear sky", "☀️"));
    (1, ("Mainly clear", "🌤️"));
    (2, ("Partly cloudy", "⛅"));
    (3, ("Overcast", "☁️"));
    (45, ("Fog", "🌫️"));
    (48, ("Depositing rime fog", "🌫️"));
    (51, ("Light drizzle", "🌦️"));
    (53, ("Moderate drizzle", "🌧️"));
    (55, ("Dense drizzle", "🌧️"));
    (56, ("Light freezing drizzle", "🌧️❄️"));
    (57, ("Dense freezing drizzle", "🌧️❄️"));
    (61, ("Slight rain", "🌧️"));
    (63, ("Moderate rain", "🌧️"));
    (65, ("Heavy rain", "⛈️"));
    (66, ("Light freezing rain", "🌧️❄️"));
    (67, ("Heavy freezing rain", "🌧️❄️"));
    (71, ("Slight snow fall", "❄️"));
    (73, ("Moderate snow fall", "❄️"));
    (75, ("Heavy snow fall", "❄️"));
    (77, ("Snow grains", "❄️"));
    (80, ("Slight rain showers", "🌦️"));
    (81, ("Moderate rain showers", "🌧️"));
    (82, ("Violent rain showers", "⛈️"));
    (85, ("Slight snow showers", "🌨️"));
    (86, ("Heavy snow showers", "🌨️"));
    (95, ("Thunderstorm", "⛈️⚡"));
    (96, ("Thunderstorm with slight hail", "⛈️⚡"));
    (99, ("Thunderstorm with heavy hail", "⛈️⚡")) ].

(** [WEATHER_CODE_MAP.get(code, default)]. *)
Fixpoint code_map_get (code : Z) (table : list (Z * (string * string)))
  (default : string * string) : string * string :=
  match table with
  | [] => default
  | (k, v) :: rest => if k =? code then v else code_map_get code rest default
  end.

Definition code_to_desc (code : Z) : string :=
  fst (code_map_get code WEATHER_CODE_MAP ("Unknown", "❓")).

Definition code_to_emoji (code : Z) : string :=
  snd (code_map_get code WEATHER_CODE_MAP ("Unknown", "❓")).

(** A code read from JSON is a dictionary key only when it is an integer
    ([3.0] hashes and compares like [3]); [None], strings and other
    numbers miss every key. *)
Definition code_of_cell (c : cell) : option Z :=
  match c with
  | CNum q =>
      if Qnum q mod Z.pos (Qden q) =? 0 then Some (Qnum q / Z.pos (Qden q))
      else None
  | _ => None
  end.

Definition cell_to_desc (c : cell) : string :=
  match code_of_cell c with
  | Some code => code_to_desc code
  | None => "Unknown"
  end.

Definition cell_to_emoji (c : cell) : string :=
  match code_of_cell c with
  | Some code => code_to_emoji code
  | None => "❓"
  end.

(** ** The JSON the two services answer *)

(** A geocoding hit is read only through [m.get(k)] for these keys; [None]
    stands for an absent key and for a JSON [null]. *)
Record place : Type := mkPlace {
  name : option string;
  admin1 : option string;
  country : option string;
  latitude : option Q;
  longitude : option Q
}.

(** The body of a geocoding answer, read through [data.get("results")]. *)
Record geocoding_data : Type := mkGeocodingData {
  results : option (list place)
}.

(** The body of a forecast answer, read through [payload.get(...)]: the
    blocks are dictionaries, the hourly and daily ones of arrays. *)
Record payload : Type := mkPayload {
  current_weather : option (dict cell);
  hourly : option (dict (list cell));
  daily : option (dict (list cell))
}.

(** ** Traces and the effect monad *)

(** A query-string value handed to [requests.get(url, params=...)]. *)
Inductive param : Type :=
| PStr (s : string)
| PInt (n : Z)
| PNum (q : Q)
| PBool (b : bool).

(** A piece of an f-string.  Text that the script builds from strings is
    computed; [str(e)] of an exception and [str(v)] of a JSON number are
    kept as the value they print. *)
Inductive fpart : Type :=
| Lit (s : string)
| StrExn (e : exn)
| StrCell (c : cell).

Definition fstring : Type := list fpart.
Definition text (s : string) : fstring := [Lit s].

(** An entry of a [DatetimeIndex]: an instant, counted in nanoseconds since
    the epoch, or [NaT]. *)
Inductive stamp : Type :=
| NaT
| At (t : Z).

(** One row of the 24-hour chart and of the 7-day table. *)
Record chart_row : Type := mkChartRow {
  chart_datetime : stamp;
  chart_temperature_2m : cell;
  chart_apparent_temperature : cell
}.

Record table_row : Type := mkTableRow {
  row_Date : stamp;
  row_Weather : string;
  row_High : cell;
  row_Low : cell
}.

(** What a run does, in order: the HTTP requests it sends and the
    Streamlit elements it renders. *)
Inductive event : Type :=
| HttpGet (url : string) (params : list (string * param))
| StSetPageConfig (page_title layout : string)
| StTitle (body : string)
| StMarkdown (body : string)
| StInfo (body : string)
| StError (body : fstring)
| StWarning (body : string)
| StWrite (body : fstring)
| StSubheader (body : string)
| StMetric (label : string) (value : fstring)
| StTextInput (label : string)
| StSelectbox (label : string) (options : list string)
| StButton (label : string)
| StSpinner (body : string)
| StColumns
| StAltairChart (data : list chart_row)
| StTable (rows : list table_row)
| StMap (lat lon : Q)
| StExpander (label : string)
| StJson (body : payload)
| StSidebarMarkdown (body : string)
| StSidebarTextInput (label : string)
| StSidebarWarning (body : string).

(** How a block of statements ends: it falls through with a value, it
    raises, or it executes a bare [return]. *)
Inductive outcome (A : Type) : Type :=
| Val (a : A)
| Exc (e : exn)
| Returned.
Arguments Val {A} a.
Arguments Exc {A} e.
Arguments Returned {A}.

Definition prog (A : Type) : Type := list event * outcome A.

Definition ret {A : Type} (a : A) : prog A := ([], Val a).

Definition bind {A B : Type} (p : prog A) (f : A -> prog B) : prog B :=
  match p with
  | (t, Val a) => let (t', o) := f a in ((t ++ t')%list, o)
  | (t, Exc e) => (t, Exc e)
  | (t, Returned) => (t, Returned)
  end.

Definition emit (e : event) : prog unit := ([e], Val tt).
Definition raise {A : Type} (e : exn) : prog A := ([], Exc e).
Definition return_ {A : Type} : prog A := ([], Returned).

(** A pure computation that may raise. *)
Definition lift {A : Type} (r : result A) : prog A :=
  match r with
  | Ok a => ret a
  | Raise e => raise e
  end.

(** [try: p  except Exception as e: handler e]. *)
Definition try_except {A : Type} (p : prog A) (handler : exn -> prog A) : prog A :=
  match p with
  | (t, Exc e) => let (t', o) := handler e in ((t ++ t')%list, o)
  | _ => p
  end.

(** Calling a procedure: its bare [return] ends the call, not the caller. *)
Definition call (p : prog unit) : prog unit :=
  match snd p with
  | Returned => (fst p, Val tt)
  | _ => p
  end.

Declare Scope prog_scope.
Delimit Scope prog_scope with prog.
Notation "x <- p ;; q" := (bind p (fun x => q))
  (at level 61, p at next level, right associativity) : prog_scope.
Notation "p ;; q" := (bind p (fun _ => q))
  (at level 61, right associativity) : prog_scope.
Open Scope prog_scope.

Definition trace {A : Type} (p : prog A) : list event := fst p.
Definition ending {A : Type} (p : prog A) : outcome A := snd p.

Definition is_request (e : event) : bool :=
  match e with
  | HttpGet _ _ => true
  | _ => false
  end.

(** The HTTP requests of a run, in order. *)
Definition requests_of (t : list event) : list event := filter is_request t.

(** ** The two HTTP clients *)

(** A [requests.Response]: [json_body] is [None] when the body does not
    decode. *)
Record Response (A : Type) : Type := mkResponse {
  status_code : Z;
  json_body : option A
}.
Arguments mkResponse {A} _ _.
Arguments status_code {A} _.
Arguments json_body {A} _.

(** The outside world: what [requests.get] answers, or the exception it
    raises, for the query sent to each endpoint. *)
Record network : Type := mkNetwork {
  geocoding_api : list (string * param) -> result (Response geocoding_data);
  forecast_api : list (string * param) -> result (Response payload)
}.

Definition raise_for_status {A : Type} (resp : Response A) : result unit :=
  if (400 <=? status_code resp) && (status_code resp <? 600)
  then Raise (HTTPError (status_code resp))
  else Ok tt.

Definition json {A : Type} (resp : Response A) : result A :=
  match json_body resp with
  | Some data => Ok data
  | None => Raise JSONDecodeError
  end.

Definition geocode_params (city : string) (max_results : Z) : list (string * param) :=
  [ ("name", PStr city); ("count", PInt max_results);
    ("language", PStr "en"); ("format", PStr "json") ].

(** The body of [geocode_city], which runs on a cache miss.  The
    [st.cache_data] wrapper is not modelled: a call it answers from the
    cache runs none of this and sends no request. *)
Definition geocode_city (net : network) (city : string) (max_results : Z)
  : prog (option (list place)) :=
  let params := geocode_params city max_results in
  emit (HttpGet GEOCODING_URL params) ;;
  resp <- lift (geocoding_api net params) ;;
  lift (raise_for_status resp) ;;
  data <- lift (json resp) ;;
  let results := results data in
  match results with
  | None => ret None
  | Some l => if negb (nonempty l) then ret None else ret (Some l)
  end.

Definition forecast_params (lat lon : Q) (timezone : string) (units : option string)
  : list (string * param) :=
  let hourly_vars := "temperature_2m,apparent_temperature,precipitation,weathercode" in
  let daily_vars := "temperature_2m_max,temperature_2m_min,weathercode" in
  [ ("latitude", PNum lat);
    ("longitude", PNum lon);
    ("current_weather", PBool true);
    ("hourly", PStr hourly_vars);
    ("daily", PStr daily_vars);
    ("timezone", PStr timezone) ].

(** The body of [fetch_weather], which runs on a cache miss (see
    [geocode_city]).  [units] is the value of the units selectbox. *)
Definition fetch_weather (net : network) (lat lon : Q) (timezone : string)
  (units : option string) : prog payload :=
  let params := forecast_params lat lon timezone units in
  emit (HttpGet FORECAST_URL params) ;;
  resp <- lift (forecast_api net params) ;;
  lift (raise_for_status resp) ;;
  lift (json resp).

(** ** Data frames *)

(** What [pd.to_datetime] returns for a list: the entries, and whether the
    index carries a timezone (the strings had a UTC offset). *)
Record DatetimeIndex : Type := mkDatetimeIndex {
  tz_aware : bool;
  stamps : list stamp
}.

(** A frame with a datetime index: the name of the index, whether it
    carries a timezone, its entries, and the columns in order.
    [pd.DataFrame()] has neither rows nor columns. *)
Record DataFrame : Type := mkDataFrame {
  index_name : option string;
  index_tz_aware : bool;
  index : list stamp;
  columns : list (string * list cell)
}.

Definition empty_frame : DataFrame := mkDataFrame None false [] [].

(** [df.empty]: some axis has length zero. *)
Definition df_empty (df : DataFrame) : bool :=
  negb (nonempty (index df)) || negb (nonempty (columns df)).

Definition nrows (df : DataFrame) : nat := List.length (index df).

(** One list of [pd.DataFrame(data, index=idx)] against an index of [n]
    entries: a list of that length is taken as it is, a list of one entry
    is repeated on every row, any other list is refused. *)
Definition fit_column (n : nat) (v : list cell) : option (list cell) :=
  if Nat.eqb (List.length v) n then Some v
  else match v with
       | [x] => Some (repeat x n)
       | _ => None
       end.

Fixpoint fit_columns (n : nat) (data : dict (list cell)) : option (dict (list cell)) :=
  match data with
  | [] => Some []
  | (k, v) :: rest =>
      match fit_column n v with
      | None => None
      | Some w =>
          match fit_columns n rest with
          | None => None
          | Some ws => Some ((k, w) :: ws)
          end
      end
  end.

(** [pd.DataFrame(data, index=idx)] for a dictionary of lists: pandas
    raises [ValueError] ("Length of values does not match length of
    index") when a list is refused. *)
Definition pd_DataFrame (data : dict (list cell)) (idx : DatetimeIndex)
  : result DataFrame :=
  match fit_columns (List.length (stamps idx)) data with
  | Some cols => Ok (mkDataFrame None (tz_aware idx) (stamps idx) cols)
  | None => Raise ValueError
  end.

Definition set_index_name (df : DataFrame) (n : string) : DataFrame :=
  mkDataFrame (Some n) (index_tz_aware df) (index df) (columns df).

(** Boolean indexing [s[mask]]. *)
Fixpoint mask {A : Type} (m : list bool) (s : list A) : list A :=
  match m, s with
  | b :: m', x :: s' => if b then x :: mask m' s' else mask m' s'
  | _, _ => []
  end.

(** One entry of [index >= now] for a naive index: [NaT] compares false. *)
Definition at_or_after (now : Z) (s : stamp) : bool :=
  match s with
  | NaT => false
  | At t => now <=? t
  end.

(** [df[df.index >= now]], [now] being a naive [datetime]: against an
    index that carries a timezone the comparison raises [TypeError]. *)
Definition rows_from (now : Z) (df : DataFrame) : result DataFrame :=
  if index_tz_aware df then Raise TypeError
  else
    let keep := map (at_or_after now) (index df) in
    Ok (mkDataFrame (index_name df) (index_tz_aware df) (mask keep (index df))
          (map (fun kv => (fst kv, mask keep (snd kv))) (columns df))).

(** [df.head(n)]. *)
Definition head (n : nat) (df : DataFrame) : DataFrame :=
  mkDataFrame (index_name df) (index_tz_aware df) (firstn n (index df))
    (map (fun kv => (fst kv, firstn n (snd kv))) (columns df)).

(** [df[name]] after [reset_index()]: a missing column is a [KeyError]. *)
Definition column (k : string) (df : DataFrame) : result (list cell) :=
  match dict_get k (columns df) with
  | Some v => Ok v
  | None => Raise KeyError
  end.

(** [df.reset_index()[name]] for the column the index turns into. *)
Definition index_column (k : string) (df : DataFrame) : result (list stamp) :=
  match index_name df with
  | Some n => if String.eqb k n then Ok (index df) else Raise KeyError
  | None => Raise KeyError
  end.

(** How [pd.to_datetime] answers a list: an index, or a refusal, raised as
    a [ValueError] (unparsable or out-of-bounds entries, mixed offsets) or
    as a [TypeError]. *)
Inductive refusal : Type :=
| BadValue
| BadType.

Inductive parsing : Type :=
| Parsed (idx : DatetimeIndex)
| Refused (why : refusal).

Section App.

(** [pd.to_datetime] on a list of JSON scalars.  Which strings pandas reads,
    and how, is left to pandas: the script is modelled for any such
    function. *)
Variable pd_to_datetime : list cell -> parsing.

Definition to_datetime (l : list cell) : result DatetimeIndex :=
  match pd_to_datetime l with
  | Parsed idx => Ok idx
  | Refused BadValue => Raise ValueError
  | Refused BadType => Raise TypeError
  end.

Definition hourly_to_df (payload : payload) : result DataFrame :=
  let hourly := match hourly payload with Some h => h | None => [] end in
  if negb (nonempty hourly) then Ok empty_frame
  else
    match to_datetime (dict_get_default "time" [] hourly) with
    | Raise e => Raise e
    | Ok times =>
        match
          pd_DataFrame
            [ ("temperature_2m", dict_get_default "temperature_2m" [] hourly);
              ("apparent_temperature", dict_get_default "apparent_temperature" [] hourly);
              ("precipitation", dict_get_default "precipitation" [] hourly);
              ("weathercode", dict_get_default "weathercode" [] hourly) ]
            times
        with
        | Raise e => Raise e
        | Ok df => Ok (set_index_name df "datetime")
        end
    end.

Definition daily_to_df (payload : payload) : result DataFrame :=
  let daily := match daily payload with Some d => d | None => [] end in
  if negb (nonempty daily) then Ok empty_frame
  else
    match to_datetime (dict_get_default "time" [] daily) with
    | Raise e => Raise e
    | Ok dates =>
        match
          pd_DataFrame
            [ ("temp_max", dict_get_default "temperature_2m_max" [] daily);
              ("temp_min", dict_get_default "temperature_2m_min" [] daily);
              ("weathercode", dict_get_default "weathercode" [] daily) ]
            dates
        with
        | Raise e => Raise e
        | Ok df => Ok (set_index_name df "date")
        end
    end.

(** ** UI pieces *)

(** [cw.get(k)]: an absent key reads as [None]. *)
Definition cell_get (k : string) (d : dict cell) : cell :=
  dict_get_default k CNull d.

Definition render_current_card (payload : payload) (place_name : string) : prog unit :=
  let cw := match current_weather payload with Some d => d | None => [] end in
  if negb (nonempty cw) then
    emit (StInfo "No current weather found for this location.") ;;
    return_
  else
    let temp := cell_get "temperature" cw in
    let wind := cell_get "windspeed" cw in
    let code := cell_get "weathercode" cw in
    let time := cell_get "time" cw in
    let desc := cell_to_desc code in
    let emoji := cell_to_emoji code in
    emit (StSubheader (emoji ++ "  " ++ place_name)) ;;
    emit StColumns ;;
    emit (StMetric "Temperature" [StrCell temp; Lit " °C"]) ;;
    emit (StMetric "Wind speed" [StrCell wind; Lit " m/s"]) ;;
    emit (StWrite (text ("**Condition:** " ++ desc))) ;;
    emit (StWrite [Lit "**Observed at:** "; StrCell time]) ;;
    emit (StWrite [Lit "**Weather code:** "; StrCell code]).

(** The rows of the three columns the chart reads. *)
Definition chart_rows (dt : list stamp) (temp feel : list cell) : list chart_row :=
  map (fun r => mkChartRow (fst r) (fst (snd r)) (snd (snd r)))
    (combine dt (combine temp feel)).

(** [now] is the reading of [datetime.utcnow()]. *)
Definition draw_24h_chart (now : Z) (hourly_df : DataFrame) : prog unit :=
  if df_empty hourly_df then
    emit (StInfo "No hourly data available.") ;;
    return_
  else
    from_now <- lift (rows_from now hourly_df) ;;
    let next_24h := head 24 from_now in
    if df_empty next_24h then
      emit (StInfo "No next-24-hour data available.") ;;
      return_
    else
      dt <- lift (index_column "datetime" next_24h) ;;
      temp <- lift (column "temperature_2m" next_24h) ;;
      feel <- lift (column "apparent_temperature" next_24h) ;;
      emit (StAltairChart (chart_rows dt temp feel)).

Definition table_rows (dates : list stamp) (emoji : list string) (hi lo : list cell)
  : list table_row :=
  map (fun r => mkTableRow (fst r) (fst (snd r)) (fst (snd (snd r))) (snd (snd (snd r))))
    (combine dates (combine emoji (combine hi lo))).

Definition show_daily_summary (daily_df : DataFrame) : prog unit :=
  if df_empty daily_df then
    emit (StInfo "No daily data available.") ;;
    return_
  else
    let df := head 7 daily_df in
    dates <- lift (index_column "date" df) ;;
    codes <- lift (column "weathercode" df) ;;
    hi <- lift (column "temp_max" df) ;;
    lo <- lift (column "temp_min" df) ;;
    emit (StTable (table_rows dates (map cell_to_emoji codes) hi lo)).

(** ** Main *)

(** What the environment and the user supply to one run of the script. *)
Record session : Type := mkSession {
  WEATHER_APP_PASSWORD : option string;
  password_typed : string;
  city_typed : string;
  units_picked : nat;
  timezone_typed : string;
  submit_clicked : bool;
  match_picked : nat;
  utcnow : Z
}.

Definition st_text_input (label value : string) : prog string :=
  emit (StTextInput label) ;; ret value.

Definition st_sidebar_text_input (label value : string) : prog string :=
  emit (StSidebarTextInput label) ;; ret value.

(** A selectbox answers one of its options, whichever the user picks, and
    [None] only when there are no options. *)
Definition st_selectbox (label : string) (options : list string) (picked : nat)
  : prog (option string) :=
  emit (StSelectbox label options) ;;
  ret (nth_error options (Nat.min picked (Nat.pred (List.length options)))).

Definition st_button (label : string) (clicked : bool) : prog bool :=
  emit (StButton label) ;; ret clicked.

(** The f-string of line 248. *)
Definition match_label (m : place) : result string :=
  match format_f 3 (latitude m) with
  | Raise e => Raise e
  | Ok lat =>
      match format_f 3 (longitude m) with
      | Raise e => Raise e
      | Ok lon =>
          Ok (py_str (name m) ++ ", " ++ or_empty (admin1 m) ++ " "
                ++ py_str (country m) ++ " (" ++ lat ++ "," ++ lon ++ ")")
      end
  end.

(** The list comprehension of line 248. *)
Fixpoint match_labels (matches : list place) : result (list string) :=
  match matches with
  | [] => Ok []
  | m :: rest =>
      match match_label m with
      | Raise e => Raise e
      | Ok l =>
          match match_labels rest with
          | Raise e => Raise e
          | Ok ls => Ok (l :: ls)
          end
      end
  end.

(** [l.index(x)] for a string [x]: the first position, or [ValueError]. *)
Fixpoint index_of (x : string) (l : list string) : result nat :=
  match l with
  | [] => Raise ValueError
  | y :: rest =>
      if String.eqb y x then Ok O
      else match index_of x rest with
           | Ok i => Ok (S i)
           | Raise e => Raise e
           end
  end.

(** [options.index(choice)]: [None] is not among the labels. *)
Definition list_index (choice : option string) (options : list string) : result nat :=
  match choice with
  | Some c => index_of c options
  | None => Raise ValueError
  end.

(** [l[i]]. *)
Definition list_item {A : Type} (l : list A) (i : nat) : result A :=
  match nth_error l i with
  | Some x => Ok x
  | None => Raise IndexError
  end.

(** Lines 247-253: the pick among the matches. *)
Definition select_place (matches : list place) (picked : nat) : prog place :=
  if (1 <? List.length matches)%nat then
    options <- lift (match_labels matches) ;;
    choice <- st_selectbox "Multiple matches found — choose one" options picked ;;
    idx <- lift (list_index choice options) ;;
    lift (list_item matches idx)
  else
    lift (list_item matches 0).

Definition getenv (value : option string) (default : string) : string :=
  match value with
  | Some v => v
  | None => default
  end.

Variable net : network.

(** Lines 255-290: the report for the selected place.  The coordinates
    are numbers from line 263 on, where [None] fails to format. *)
Definition report (s : session) (units : option string) (tz_choice : string)
  (place : place) : prog unit :=
  let name := name place in
  let admin1 := or_empty (admin1 place) in
  let country := country place in
  let place_label :=
    py_str name ++ (if str_truthy admin1 then ", " ++ admin1 else "")
      ++ ", " ++ py_str country in
  emit (StMarkdown ("**Selected:** " ++ place_label)) ;;
  match latitude place, longitude place with
  | Some lat, Some lon =>
      emit (StWrite (text ("Coordinates: " ++ fixed 4 lat ++ ", " ++ fixed 4 lon))) ;;
      let timezone := if str_truthy (strip tz_choice) then strip tz_choice else "UTC" in
      emit (StSpinner "Fetching weather...") ;;
      payload <- try_except (fetch_weather net lat lon timezone units)
                   (fun e => emit (StError [Lit "Weather fetch failed: "; StrExn e]) ;;
                             return_) ;;
      emit StColumns ;;
      call (render_current_card payload place_label) ;;
      emit (StMarkdown "### Next 24 hours") ;;
      hourly_df <- lift (hourly_to_df payload) ;;
      call (draw_24h_chart (utcnow s) hourly_df) ;;
      try_except (emit (StMap lat lon)) (fun _ => ret tt) ;;
      emit (StMarkdown "### 7-day summary") ;;
      daily_df <- lift (daily_to_df payload) ;;
      call (show_daily_summary daily_df) ;;
      emit (StExpander "Raw full API response") ;;
      emit (StJson payload)
  | _, _ =>
      (* f"{lat:.4f}" or f"{lon:.4f}" on None *)
      raise TypeError
  end.

(** Lines 211-217: the optional password gate. *)
Definition password_gate (s : session) : prog unit :=
  let app_password := getenv (WEATHER_APP_PASSWORD s) "" in
  if str_truthy app_password then
    emit (StSidebarMarkdown "App access protected") ;;
    pw <- st_sidebar_text_input "Enter app password" (password_typed s) ;;
    if negb (String.eqb pw app_password) then
      emit (StSidebarWarning "Enter password to continue") ;;
      return_
    else ret tt
  else ret tt.

(** Lines 219-232: the form; it hands on [city], [units] and [tz_choice]. *)
Definition form (s : session) : prog (string * option string * string) :=
  emit (StMarkdown
          "Enter a city name (e.g., `London, UK`). Open-Meteo is free — no API key needed.") ;;
  city <- st_text_input "City name" (city_typed s) ;;
  units <- st_selectbox "Units" ["metric"; "imperial"] (units_picked s) ;;
  tz_choice <- st_text_input
                 "Timezone (optional, e.g., Europe/London). Leave blank for UTC"
                 (timezone_typed s) ;;
  submit <- st_button "Get Weather" (submit_clicked s) ;;
  (if negb submit then
     emit (StInfo "Type a city and click 'Get Weather' to fetch data.") ;;
     return_
   else ret tt) ;;
  (if negb (str_truthy (strip city)) then
     emit (StError (text "Please enter a city name.")) ;;
     return_
   else ret tt) ;;
  ret (city, units, tz_choice).

(** Lines 235-244: geocoding; it hands on the matches, none of them when
    [geocode_city] returned [None]. *)
Definition find_matches (city : string) : prog (list place) :=
  emit (StSpinner "Geocoding...") ;;
  matches <- try_except (geocode_city net city 5)
               (fun e => emit (StError [Lit "Geocoding failed: "; StrExn e]) ;;
                         return_) ;;
  let matches := match matches with Some l => l | None => [] end in
  (if negb (nonempty matches) then
     emit (StWarning
             "Location not found. Try adding country or state (e.g., 'Springfield, IL').") ;;
     return_
   else ret tt) ;;
  ret matches.

Definition main (s : session) : prog unit :=
  emit (StSetPageConfig "Weather Report" "centered") ;;
  emit (StTitle "🌤️ Weather Report") ;;
  password_gate s ;;
  inputs <- form s ;;
  let city := fst (fst inputs) in
  let units := snd (fst inputs) in
  let tz_choice := snd inputs in
  matches <- find_matches city ;;
  place <- select_place matches (match_picked s) ;;
  report s units tz_choice place.

End App.

(** ** Concrete inputs used to exercise the statements *)

(** A sample of [pd.to_datetime] for the examples.  It reads an integer as
    nanoseconds since the epoch, [null] as [NaT], and the strings
    [YYYY-MM-DD] and [YYYY-MM-DDTHH:MM], the latter with an optional [Z] or
    [+HH:MM] / [-HH:MM]; the index carries a timezone when the strings have
    one and the same offset.  Everything else it refuses, where pandas
    reads more. *)
Definition digit_value (c : ascii) : option Z :=
  let n := nat_of_ascii c in
  if (48 <=? n)%nat && (n <=? 57)%nat then Some (Z.of_nat n - 48) else None.

(** Reads [n] decimal digits at the head of [s]. *)
Fixpoint read_digits (n : nat) (acc : Z) (s : string) : option (Z * string) :=
  match n with
  | O => Some (acc, s)
  | S n' =>
      match s with
      | EmptyString => None
      | String c rest =>
          match digit_value c with
          | Some d => read_digits n' (10 * acc + d) rest
          | None => None
          end
      end
  end.

Definition expect (c : ascii) (s : string) : option string :=
  match s with
  | String c' rest => if Ascii.eqb c c' then Some rest else None
  | EmptyString => None
  end.

Definition days_in_month (y m : Z) : Z :=
  if m =? 2 then
    if ((y mod 4 =? 0) && negb (y mod 100 =? 0)) || (y mod 400 =? 0) then 29 else 28
  else if (m =? 4) || (m =? 6) || (m =? 9) || (m =? 11) then 30 else 31.

(** Days from 1970-01-01 to the civil date. *)
Definition days_from_civil (y m d : Z) : Z :=
  let y' := if m <=? 2 then y - 1 else y in
  let era := y' / 400 in
  let yoe := y' - era * 400 in
  let mp := (m + 9) mod 12 in
  let doy := (153 * mp + 2) / 5 + d - 1 in
  let doe := yoe * 365 + yoe / 4 - yoe / 100 + doy in
  era * 146097 + doe - 719468.

(** One entry read: [NaT], a naive instant, an instant with its offset in
    minutes, or nothing. *)
Inductive reading : Type :=
| RNaT
| RNaive (t : Z)
| RAware (t : Z) (offset : Z).

Definition minute_ns : Z := 60 * 1000000000.

Definition read_offset (s : string) : option (option Z) :=
  match s with
  | EmptyString => Some None
  | String c rest =>
      if Ascii.eqb c "Z" then
        match rest with EmptyString => Some (Some 0) | _ => None end
      else
        let sign := if Ascii.eqb c "+" then Some 1
                    else if Ascii.eqb c "-" then Some (-1) else None in
        match sign with
        | None => None
        | Some sg =>
            match read_digits 2 0 rest with
            | None => None
            | Some (oh, r1) =>
                match expect ":" r1 with
                | None => None
                | Some r2 =>
                    match read_digits 2 0 r2 with
                    | Some (om, EmptyString) =>
                        if (oh <? 24) && (om <? 60) then Some (Some (sg * (oh * 60 + om)))
                        else None
                    | _ => None
                    end
                end
            end
        end
  end.

Definition read_iso (s : string) : option reading :=
  match read_digits 4 0 s with
  | None => None
  | Some (y, r1) =>
  match expect "-" r1 with
  | None => None
  | Some r2 =>
  match read_digits 2 0 r2 with
  | None => None
  | Some (m, r3) =>
  match expect "-" r3 with
  | None => None
  | Some r4 =>
  match read_digits 2 0 r4 with
  | None => None
  | Some (d, r5) =>
      if (1 <=? m) && (m <=? 12) && (1 <=? d) && (d <=? days_in_month y m) then
        let day_minutes := days_from_civil y m d * 1440 in
        match r5 with
        | EmptyString => Some (RNaive (day_minutes * minute_ns))
        | _ =>
            match expect "T" r5 with
            | None => None
            | Some r6 =>
            match read_digits 2 0 r6 with
            | None => None
            | Some (hh, r7) =>
            match expect ":" r7 with
            | None => None
            | Some r8 =>
            match read_digits 2 0 r8 with
            | None => None
            | Some (mi, r9) =>
                if (hh <? 24) && (mi <? 60) then
                  let local := day_minutes + hh * 60 + mi in
                  match read_offset r9 with
                  | None => None
                  | Some None => Some (RNaive (local * minute_ns))
                  | Some (Some off) => Some (RAware ((local - off) * minute_ns) off)
                  end
                else None
            end end end end
        end
      else None
  end end end end end.

Definition read_cell (c : cell) : option reading :=
  match c with
  | CNull => Some RNaT
  | CNum q =>
      if (Qnum q mod Z.pos (Qden q) =? 0)
         && (Z.abs (Qnum q / Z.pos (Qden q)) <? 2 ^ 63)
      then Some (RNaive (Qnum q / Z.pos (Qden q)))
      else None
  | CStr s => read_iso s
  end.

(** The offset the readings agree on: [Some None] when all are naive,
    [Some (Some off)] when all carry the offset [off]; [NaT] goes with
    both. *)
Fixpoint common_offset (l : list reading) : option (option Z) :=
  match l with
  | [] => Some None
  | RNaT :: rest => common_offset rest
  | RNaive _ :: rest =>
      if forallb (fun r => match r with RAware _ _ => false | _ => true end) rest
      then Some None else None
  | RAware _ off :: rest =>
      if forallb (fun r => match r with
                           | RNaive _ => false
                           | RAware _ off' => off' =? off
                           | RNaT => true
                           end) rest
      then Some (Some off) else None
  end.

Definition stamp_of (r : reading) : stamp :=
  match r with
  | RNaT => NaT
  | RNaive t => At t
  | RAware t _ => At t
  end.

Fixpoint read_cells (l : list cell) : option (list reading) :=
  match l with
  | [] => Some []
  | c :: rest =>
      match read_cell c, read_cells rest with
      | Some r, Some rs => Some (r :: rs)
      | _, _ => None
      end
  end.

Definition sample_to_datetime (l : list cell) : parsing :=
  match read_cells l with
  | None => Refused BadValue
  | Some rs =>
      match common_offset rs with
      | None => Refused BadValue
      | Some None => Parsed (mkDatetimeIndex false (map stamp_of rs))
      | Some (Some _) => Parsed (mkDatetimeIndex true (map stamp_of rs))
      end
  end.

(** An oracle keeps the length when the index it returns has one entry per
    entry of the list, as pandas does. *)
Definition keeps_length (f : list cell -> parsing) : Prop :=
  forall (l : list cell) (idx : DatetimeIndex),
    f l = Parsed idx -> List.length (stamps idx) = List.length l.

(** Three hours with a UTC offset, as [2024-01-01T00:00+00:00]. *)
Definition hourly_with_offset : payload :=
  mkPayload None
    (Some [ ("time", [ CStr "2024-01-01T00:00+00:00"; CStr "2024-01-01T01:00+00:00";
                       CStr "2024-01-01T02:00+00:00" ]);
            ("temperature_2m", [CNum (10 # 1); CNum (11 # 1); CNum (12 # 1)]);
            ("apparent_temperature", [CNum (9 # 1); CNum (10 # 1); CNum (11 # 1)]);
            ("precipitation", [CNum (0 # 1); CNum (0 # 1); CNum (1 # 1)]);
            ("weathercode", [CNum (0 # 1); CNum (1 # 1); CNum (61 # 1)]) ])
    None.

(** Three hours as Open-Meteo sends them, against one temperature. *)
Definition hourly_3_1 : payload :=
  mkPayload None
    (Some [ ("time", [ CStr "2024-01-01T00:00"; CStr "2024-01-01T01:00";
                       CStr "2024-01-01T02:00" ]);
            ("temperature_2m", [CNum (10 # 1)]);
            ("apparent_temperature", [CNum (9 # 1); CNum (10 # 1); CNum (11 # 1)]);
            ("precipitation", [CNum (0 # 1); CNum (0 # 1); CNum (1 # 1)]);
            ("weathercode", [CNum (0 # 1); CNum (1 # 1); CNum (61 # 1)]) ])
    None.

Definition numbers (l : list Z) : list cell := map (fun z => CNum (z # 1)) l.

(** Ten timestamps against eight temperatures. *)
Definition hourly_10_8 : payload :=
  mkPayload None
    (Some [ ("time", numbers [0; 1; 2; 3; 4; 5; 6; 7; 8; 9]);
            ("temperature_2m", numbers [10; 11; 12; 13; 14; 15; 16; 17]);
            ("apparent_temperature", numbers [9; 10; 11; 12; 13; 14; 15; 16; 17; 18]);
            ("precipitation", numbers [0; 0; 0; 0; 0; 0; 0; 0; 0; 0]);
            ("weathercode", numbers [0; 1; 2; 3; 3; 2; 1; 0; 0; 1]) ])
    None.

(** Three dates against two daily maxima. *)
Definition daily_3_2 : payload :=
  mkPayload None None
    (Some [ ("time", numbers [0; 1; 2]);
            ("temperature_2m_max", numbers [20; 21]);
            ("temperature_2m_min", numbers [10; 11; 12]);
            ("weathercode", numbers [0; 1; 2]) ]).

(** A well-formed payload: three hours, two days. *)
Definition sample_payload : payload :=
  mkPayload
    (Some [ ("temperature", CNum (12 # 1)); ("windspeed", CNum (3 # 1));
            ("weathercode", CNum (3 # 1)); ("time", CStr "2024-01-01T00:00") ])
    (Some [ ("time", numbers [100; 200; 300]);
            ("temperature_2m", numbers [10; 11; 12]);
            ("apparent_temperature", numbers [9; 10; 11]);
            ("precipitation", numbers [0; 0; 1]);
            ("weathercode", numbers [0; 1; 61]) ])
    (Some [ ("time", numbers [100; 2500]);
            ("temperature_2m_max", numbers [20; 21]);
            ("temperature_2m_min", numbers [10; 11]);
            ("weathercode", numbers [0; 3]) ]).

Definition london : place :=
  mkPlace (Some "London") (Some "England") (Some "United Kingdom")
    (Some (515074 # 10000)) (Some (-1278 # 10000)).

Definition london_ontario : place :=
  mkPlace (Some "London") (Some "Ontario") (Some "Canada")
    (Some (429834 # 10000)) (Some (-812497 # 10000)).

(** A service that knows no place and one that knows two Londons. *)
Definition net_no_match : network :=
  mkNetwork (fun _ => Ok (mkResponse 200 (Some (mkGeocodingData None))))
            (fun _ => Ok (mkResponse 200 (Some sample_payload))).

Definition net_two_matches : network :=
  mkNetwork (fun _ => Ok (mkResponse 200 (Some (mkGeocodingData (Some [london; london_ontario])))))
            (fun _ => Ok (mkResponse 200 (Some sample_payload))).

Definition sample_session : session :=
  mkSession None "" "London" 0 "" true 1 150.

(** A value array [v] laid against [n] rows gives [w]: [v] itself when it
    has [n] entries, its single entry on every row otherwise. *)
Definition laid_out (n : nat) (v w : list cell) : Prop :=
  (List.length v = n /\ w = v)
  \/ (List.length v <> n /\ exists x : cell, v = [x] /\ w = repeat x n).

(** The value arrays the normalizers put in the frame (the dictionary
    literals of lines 101-106 and 120-124), absent arrays read as empty. *)
Definition hourly_columns (h : dict (list cell)) : dict (list cell) :=
  [ ("temperature_2m", dict_get_default "temperature_2m" [] h);
    ("apparent_temperature", dict_get_default "apparent_temperature" [] h);
    ("precipitation", dict_get_default "precipitation" [] h);
    ("weathercode", dict_get_default "weathercode" [] h) ].

Definition daily_columns (d : dict (list cell)) : dict (list cell) :=
  [ ("temp_max", dict_get_default "temperature_2m_max" [] d);
    ("temp_min", dict_get_default "temperature_2m_min" [] d);
    ("weathercode", dict_get_default "weathercode" [] d) ].

(** The same session with another pick in the units selectbox. *)
Definition with_units_picked (s : session) (n : nat) : session :=
  mkSession (WEATHER_APP_PASSWORD s) (password_typed s) (city_typed s) n
    (timezone_typed s) (submit_clicked s) (match_picked s) (utcnow s).

(** The entries of an hourly series as the chart reads them, and those the
    24-hour chart is to plot at time [now]. *)
Definition entries (df : DataFrame) : list chart_row :=
  chart_rows (index df)
    (dict_get_default "temperature_2m" [] (columns df))
    (dict_get_default "apparent_temperature" [] (columns df)).

Definition upcoming (now : Z) (df : DataFrame) : list chart_row :=
  firstn 24 (filter (fun r => at_or_after now (chart_datetime r)) (entries df)).

(** The gate lets the run through: no password is configured, or the one
    typed is the configured one. *)
Definition gate_open (s : session) : bool :=
  let app_password := getenv (WEATHER_APP_PASSWORD s) "" in
  negb (str_truthy app_password) || String.eqb (password_typed s) app_password.

(** The widgets of the form, in the order the script draws them. *)
Definition form_widgets : list event :=
  [ StMarkdown
      "Enter a city name (e.g., `London, UK`). Open-Meteo is free — no API key needed.";
    StTextInput "City name";
    StSelectbox "Units" ["metric"; "imperial"];
    StTextInput "Timezone (optional, e.g., Europe/London). Leave blank for UTC";
    StButton "Get Weather" ].

Definition page_header : list event :=
  [ StSetPageConfig "Weather Report" "centered"; StTitle "🌤️ Weather Report" ].

Definition gate_prompt : list event :=
  [ StSidebarMarkdown "App access protected";
    StSidebarTextInput "Enter app password" ].

Definition not_found_warning : event :=
  StWarning "Location not found. Try adding country or state (e.g., 'Springfield, IL').".

(** A run that does not end by raising [bad]. *)
Definition never_raises {A : Type} (bad : exn) (p : prog A) : Prop :=
  ending p <> Exc bad.

(** A label shows its coordinates with [n] decimals: a point followed by
    exactly [n] digits. *)
Definition is_digit (c : ascii) : bool :=
  (48 <=? nat_of_ascii c)%nat && (nat_of_ascii c <=? 57)%nat.

Definition has_decimals (n : nat) (s : string) : Prop :=
  exists whole frac : string,
    s = whole ++ "." ++ frac
    /\ String.length frac = n
    /\ forallb is_digit (list_ascii_of_string frac) = true.

(** The form of a label of the selectbox of line 249. *)
Definition label_of (m : place) (label : string) : Prop :=
  exists lat lon : Q,
    latitude m = Some lat /\ longitude m = Some lon
    /\ label = py_str (name m) ++ ", " ++ or_empty (admin1 m) ++ " "
                 ++ py_str (country m) ++ " (" ++ fixed 3 lat ++ "," ++ fixed 3 lon ++ ")"
    /\ has_decimals 3 (fixed 3 lat) /\ has_decimals 3 (fixed 3 lon).

Definition locked_session : session :=
  mkSession (Some "abc") "xyz" "London" 0 "" true 0 0.

Definition blank_session : session :=
  mkSession None "" "   " 0 "" true 0 0.

(** The days of a daily series as the 7-day table reads them. *)
Definition days (df : DataFrame) : list table_row :=
  table_rows (index df)
    (map cell_to_emoji (dict_get_default "weathercode" [] (columns df)))
    (dict_get_default "temp_max" [] (columns df))
    (dict_get_default "temp_min" [] (columns df)).

(** The two requests a run can send. *)
Definition geocoding_request (city : string) : event :=
  HttpGet GEOCODING_URL (geocode_params city 5).

Definition forecast_request (lat lon : Q) (tz_choice : string) (units : option string)
  : event :=
  HttpGet FORECAST_URL
    (forecast_params lat lon
       (if str_truthy (strip tz_choice) then strip tz_choice else "UTC") units).

(** The line "Selected: ..." and the line of coordinates of the report. *)
Definition selected_lines (m : place) (lat lon : Q) : list event :=
  [ StMarkdown ("**Selected:** "
                  ++ py_str (name m)
                  ++ (if str_truthy (or_empty (admin1 m))
                      then ", " ++ or_empty (admin1 m) else "")
                  ++ ", " ++ py_str (country m));
    StWrite (text ("Coordinates: " ++ fixed 4 lat ++ ", " ++ fixed 4 lon)) ].

(** Services used to exercise the statements: geocoding unreachable, the
    forecast answering 503, one match and a forecast without any block. *)
Definition net_geocoding_down : network :=
  mkNetwork (fun _ => Raise (RequestException "connection refused"))
            (fun _ => Ok (mkResponse 200 (Some sample_payload))).

Definition net_forecast_down : network :=
  mkNetwork (fun _ => Ok (mkResponse 200 (Some (mkGeocodingData (Some [london])))))
            (fun _ => Ok (mkResponse 503 (Some sample_payload))).

Definition net_bare_forecast : network :=
  mkNetwork (fun _ => Ok (mkResponse 200 (Some (mkGeocodingData (Some [london])))))
            (fun _ => Ok (mkResponse 200 (Some (mkPayload None None None)))).

Definition net_mismatch : network :=
  mkNetwork (fun _ => Ok (mkResponse 200 (Some (mkGeocodingData (Some [london])))))
            (fun _ => Ok (mkResponse 200 (Some hourly_10_8))).

Definition nowhere : place :=
  mkPlace (Some "Nowhere") None (Some "Utopia") None None.

Definition net_london_and_nowhere : network :=
  mkNetwork (fun _ => Ok (mkResponse 200
                            (Some (mkGeocodingData (Some [london; nowhere])))))
            (fun _ => Ok (mkResponse 200 (Some sample_payload))).

Definition idle_session : session :=
  mkSession None "" "London" 0 "" false 0 0.

(** * Properties *)

(** ** [str.strip()] *)

Lemma drop_prefix_shorter (p s r : list ascii) :
  p <> [] -> drop_prefix p s = Some r -> (List.length r < List.length s)%nat.
Proof.
  revert s. induction p as [|a p IH]; intros s Hp H; [congruence|].
  destruct s as [|b s]; simpl in H; [discriminate|].
  destruct (Ascii.eqb a b); [|discriminate].
  destruct p as [|a' p].
  - simpl in H. inversion H; subst. simpl. lia.
  - assert (List.length r < List.length s)%nat by (apply IH; [discriminate|exact H]).
    simpl. lia.
Qed.

Lemma drop_first_shorter (encodings : list (list ascii)) (s r : list ascii) :
  Forall (fun p => p <> []) encodings ->
  drop_first encodings s = Some r -> (List.length r < List.length s)%nat.
Proof.
  induction 1 as [|p rest Hp _ IH]; simpl; [discriminate|].
  destruct (drop_prefix p s) eqn:E; [|exact IH].
  intros H. inversion H; subst. eapply drop_prefix_shorter; eauto.
Qed.

(** The rounds of [lstrip_bytes] suffice: what it returns starts with none
    of the characters to remove. *)
Lemma lstrip_rounds_done (encodings : list (list ascii)) (n : nat) (s : list ascii) :
  Forall (fun p => p <> []) encodings ->
  (List.length s <= n)%nat ->
  drop_first encodings (lstrip_rounds n encodings s) = None.
Proof.
  intros Henc. revert s. induction n as [|n IH]; intros s Hlen; simpl.
  - destruct (drop_first encodings s) eqn:E; [|reflexivity].
    apply drop_first_shorter in E; [lia|exact Henc].
  - destruct (drop_first encodings s) eqn:E; [|exact E].
    apply IH. apply drop_first_shorter in E; [lia|exact Henc].
Qed.

Lemma WHITESPACE_nonempty : Forall (fun p : list ascii => p <> []) WHITESPACE.
Proof. unfold WHITESPACE. simpl. repeat constructor; discriminate. Qed.

Lemma lstrip_whitespace_done (s : list ascii) :
  drop_first WHITESPACE (lstrip_bytes WHITESPACE s) = None.
Proof.
  apply lstrip_rounds_done; [apply WHITESPACE_nonempty|]. unfold lstrip_bytes. lia.
Qed.

(** ** Weather codes *)

Lemma code_map_get_absent (code : Z) (table : list (Z * (string * string)))
  (default : string * string) :
  ~ In code (map fst table) -> code_map_get code table default = default.
Proof.
  induction table as [|[k v] rest IH]; simpl; intros H.
  - reflexivity.
  - destruct (Z.eqb_spec k code) as [->|Hne].
    + exfalso. apply H. now left.
    + apply IH. intros Hin. apply H. now right.
Qed.

Lemma code_map_get_present (code : Z) (table : list (Z * (string * string)))
  (default v : string * string) :
  NoDup (map fst table) -> In (code, v) table ->
  code_map_get code table default = v.
Proof.
  induction table as [|[k w] rest IH]; simpl; intros Hnd Hin.
  - contradiction.
  - inversion Hnd as [|? ? Hk Hrest]; subst.
    destruct Hin as [Heq|Hin].
    + inversion Heq; subst. now rewrite Z.eqb_refl.
    + destruct (Z.eqb_spec k code) as [->|Hne].
      * exfalso. apply Hk. change code with (fst (code, v)). now apply in_map.
      * now apply IH.
Qed.

Lemma WEATHER_CODE_MAP_keys_distinct : NoDup (map fst WEATHER_CODE_MAP).
Proof.
  unfold WEATHER_CODE_MAP. simpl.
  repeat (constructor; [simpl; intuition discriminate|]).
  constructor.
Qed.

(** C3: a code outside the keys of [WEATHER_CODE_MAP] is described as
    "Unknown" with the glyph "❓"; a code among the keys gets the
    description and the glyph of its entry, and no key has two entries. *)
Theorem code_lookup_fallback_and_unique (code : Z) :
  (~ In code (map fst WEATHER_CODE_MAP) ->
   code_to_desc code = "Unknown" /\ code_to_emoji code = "❓")
  /\ (forall desc glyph : string,
        In (code, (desc, glyph)) WEATHER_CODE_MAP ->
        code_to_desc code = desc /\ code_to_emoji code = glyph)
  /\ (forall v w : string * string,
        In (code, v) WEATHER_CODE_MAP -> In (code, w) WEATHER_CODE_MAP -> v = w).
Proof.
  unfold code_to_desc, code_to_emoji. repeat split.
  - now rewrite code_map_get_absent.
  - now rewrite code_map_get_absent.
  - rewrite (code_map_get_present code WEATHER_CODE_MAP _ (desc, glyph));
      auto using WEATHER_CODE_MAP_keys_distinct.
  - rewrite (code_map_get_present code WEATHER_CODE_MAP _ (desc, glyph));
      auto using WEATHER_CODE_MAP_keys_distinct.
  - intros v w Hv Hw.
    rewrite <- (code_map_get_present code WEATHER_CODE_MAP v v);
      auto using WEATHER_CODE_MAP_keys_distinct.
    now apply code_map_get_present; auto using WEATHER_CODE_MAP_keys_distinct.
Qed.

Lemma code_lookup_fallback_and_unique_witness :
  (code_to_desc 4 = "Unknown" /\ code_to_emoji 4 = "❓")
  /\ (code_to_desc 3 = "Overcast" /\ code_to_emoji 3 = "☁️").
Proof.
  split.
  - apply (proj1 (code_lookup_fallback_and_unique 4)).
    simpl. intuition discriminate.
  - apply (proj1 (proj2 (code_lookup_fallback_and_unique 3))).
    simpl. auto 10.
Defined.

(** ** The response normalizer *)

Lemma fit_column_spec (n : nat) (v w : list cell) :
  fit_column n v = Some w -> laid_out n v w /\ List.length w = n.
Proof.
  unfold fit_column, laid_out. destruct (Nat.eqb_spec (List.length v) n) as [He|Hne].
  - intros H. inversion H; subst. split; [now left|reflexivity].
  - destruct v as [|x [|y v]]; try discriminate.
    intros H. inversion H; subst. split; [|apply repeat_length].
    right. split; [exact Hne|]. now exists x.
Qed.

Lemma fit_column_same (n : nat) (v : list cell) :
  List.length v = n -> fit_column n v = Some v.
Proof. intros H. unfold fit_column. apply Nat.eqb_eq in H. now rewrite H. Qed.

Lemma fit_column_refuses (n : nat) (v : list cell) :
  List.length v <> n -> List.length v <> 1%nat -> fit_column n v = None.
Proof.
  intros Hn H1. unfold fit_column. apply Nat.eqb_neq in Hn. rewrite Hn.
  destruct v as [|x [|y v]]; try reflexivity. now contradiction H1.
Qed.

Lemma fit_columns_spec (n : nat) (data cols : dict (list cell)) :
  fit_columns n data = Some cols ->
  Forall2 (fun kv kw => fst kw = fst kv /\ laid_out n (snd kv) (snd kw)) data cols
  /\ Forall (fun kw => List.length (snd kw) = n) cols.
Proof.
  revert cols. induction data as [|[k v] rest IH]; simpl; intros cols H.
  - inversion H. split; constructor.
  - destruct (fit_column n v) as [w|] eqn:Ev; [|discriminate].
    destruct (fit_columns n rest) as [ws|]; [|discriminate].
    inversion H; subst. apply fit_column_spec in Ev as [Hlaid Hlen].
    destruct (IH ws eq_refl) as [H2 Hall]. split; constructor; auto.
Qed.

Lemma fit_columns_same (n : nat) (data : dict (list cell)) :
  Forall (fun kv => List.length (snd kv) = n) data -> fit_columns n data = Some data.
Proof.
  induction 1 as [|kv rest Hv _ IH]; [reflexivity|].
  destruct kv as [k v]. simpl in *. now rewrite (fit_column_same _ _ Hv), IH.
Qed.

Lemma fit_columns_refuses (n : nat) (data : dict (list cell)) :
  Exists (fun kv => List.length (snd kv) <> n /\ List.length (snd kv) <> 1%nat) data ->
  fit_columns n data = None.
Proof.
  induction 1 as [kv rest [Hn H1]|kv rest _ IH]; destruct kv as [k v]; simpl in *.
  - now rewrite (fit_column_refuses _ _ Hn H1).
  - rewrite IH. now destruct (fit_column n v).
Qed.

(** What a normalizer does with a non-empty block: the time array [time],
    the value arrays [cols] and the name [name] of the index. *)
Lemma frame_of_block (parse : list cell -> parsing) (time : list cell)
  (cols : dict (list cell)) (name : string) :
  let build :=
    match to_datetime parse time with
    | Raise e => Raise e
    | Ok times =>
        match pd_DataFrame cols times with
        | Raise e => Raise e
        | Ok df => Ok (set_index_name df name)
        end
    end in
  (forall df : DataFrame,
     build = Ok df ->
     exists (idx : DatetimeIndex) (fitted : dict (list cell)),
       parse time = Parsed idx
       /\ fit_columns (List.length (stamps idx)) cols = Some fitted
       /\ df = mkDataFrame (Some name) (tz_aware idx) (stamps idx) fitted)
  /\ (forall idx : DatetimeIndex,
        parse time = Parsed idx ->
        build = match fit_columns (List.length (stamps idx)) cols with
                | Some fitted =>
                    Ok (mkDataFrame (Some name) (tz_aware idx) (stamps idx) fitted)
                | None => Raise ValueError
                end)
  /\ (forall why : refusal,
        parse time = Refused why ->
        build = Raise (match why with BadValue => ValueError | BadType => TypeError end)).
Proof.
  intros build. unfold build, to_datetime, pd_DataFrame. repeat split.
  - intros df H. destruct (parse time) as [idx|[|]]; try discriminate.
    destruct (fit_columns _ cols) as [fitted|] eqn:Ef; [|discriminate].
    inversion H; subst. now exists idx, fitted.
  - intros idx ->. now destruct (fit_columns _ cols).
  - intros why ->. now destruct why.
Qed.

(** C5: a payload whose hourly (daily) block is missing or empty gives the
    empty frame, without an exception. *)
Theorem missing_block_gives_empty_series (parse : list cell -> parsing) (p : payload) :
  (hourly p = None \/ hourly p = Some [] ->
   hourly_to_df parse p = Ok empty_frame)
  /\ (daily p = None \/ daily p = Some [] ->
      daily_to_df parse p = Ok empty_frame)
  /\ df_empty empty_frame = true
  /\ nrows empty_frame = 0%nat.
Proof.
  repeat split.
  - intros [H|H]; unfold hourly_to_df; now rewrite H.
  - intros [H|H]; unfold daily_to_df; now rewrite H.
Qed.

Lemma missing_block_gives_empty_series_witness :
  hourly_to_df sample_to_datetime daily_3_2 = Ok empty_frame
  /\ daily_to_df sample_to_datetime (mkPayload None (Some []) (Some [])) = Ok empty_frame.
Proof.
  split.
  - apply (proj1 (missing_block_gives_empty_series sample_to_datetime daily_3_2)).
    left. reflexivity.
  - apply (proj1 (proj2 (missing_block_gives_empty_series sample_to_datetime
                           (mkPayload None (Some []) (Some []))))).
    right. reflexivity.
Defined.

Lemma hourly_to_df_block (parse : list cell -> parsing) (p : payload)
  (h : dict (list cell)) :
  hourly p = Some h -> h <> [] ->
  hourly_to_df parse p
  = match to_datetime parse (dict_get_default "time" [] h) with
    | Raise e => Raise e
    | Ok times =>
        match pd_DataFrame (hourly_columns h) times with
        | Raise e => Raise e
        | Ok df => Ok (set_index_name df "datetime")
        end
    end.
Proof.
  intros Hh Hne. unfold hourly_to_df. rewrite Hh.
  destruct h; [congruence|reflexivity].
Qed.

Lemma daily_to_df_block (parse : list cell -> parsing) (p : payload)
  (d : dict (list cell)) :
  daily p = Some d -> d <> [] ->
  daily_to_df parse p
  = match to_datetime parse (dict_get_default "time" [] d) with
    | Raise e => Raise e
    | Ok dates =>
        match pd_DataFrame (daily_columns d) dates with
        | Raise e => Raise e
        | Ok df => Ok (set_index_name df "date")
        end
    end.
Proof.
  intros Hd Hne. unfold daily_to_df. rewrite Hd.
  destruct d; [congruence|reflexivity].
Qed.

(** The three facts of C1 for one block. *)
Lemma block_never_truncated (parse : list cell -> parsing) (time : list cell)
  (cols : dict (list cell)) (name : string) (run : result DataFrame) :
  keeps_length parse ->
  run = match to_datetime parse time with
        | Raise e => Raise e
        | Ok times =>
            match pd_DataFrame cols times with
            | Raise e => Raise e
            | Ok df => Ok (set_index_name df name)
            end
        end ->
  (Exists (fun kv => List.length (snd kv) <> List.length time
                     /\ List.length (snd kv) <> 1%nat) cols ->
   (exists e : exn, run = Raise e)
   /\ forall idx : DatetimeIndex, parse time = Parsed idx -> run = Raise ValueError)
  /\ (forall df : DataFrame,
        run = Ok df ->
        nrows df = List.length time
        /\ Forall2 (fun kv kw => fst kw = fst kv
                                 /\ laid_out (List.length time) (snd kv) (snd kw))
             cols (columns df))
  /\ (forall idx : DatetimeIndex,
        parse time = Parsed idx ->
        Forall (fun kv => List.length (snd kv) = List.length time) cols ->
        run = Ok (mkDataFrame (Some name) (tz_aware idx) (stamps idx) cols)).
Proof.
  intros Hkeep ->.
  destruct (frame_of_block parse time cols name) as (Hok & Hparsed & Hrefused).
  cbv zeta in *. repeat split.
  - destruct (parse time) as [idx|why] eqn:Ep.
    + rewrite (Hparsed idx eq_refl), (Hkeep _ _ Ep), (fit_columns_refuses _ _ H).
      now eexists.
    + rewrite (Hrefused why eq_refl). now eexists.
  - intros idx Ep.
    now rewrite (Hparsed idx Ep), (Hkeep _ _ Ep), (fit_columns_refuses _ _ H).
  - apply Hok in H as (idx & fitted & Ep & Ef & ->).
    unfold nrows. cbn. now apply Hkeep.
  - apply Hok in H as (idx & fitted & Ep & Ef & ->).
    cbn. rewrite (Hkeep _ _ Ep) in Ef. now apply fit_columns_spec in Ef.
  - intros idx Ep Hall.
    rewrite (Hparsed idx Ep), (Hkeep _ _ Ep). now rewrite fit_columns_same.
Qed.

(** C1, as the code has it: the normalizers do not truncate.  For a
    non-empty hourly (daily) block and a [pd.to_datetime] that returns one
    entry per timestamp: a value array that has neither the length of the
    time array nor a single entry makes the normalizer raise; when the
    normalizer returns, the frame has as many rows as the time array has
    entries, each value array of that length unchanged and each value array
    of a single entry repeated on every row; in particular, with all arrays
    as long as the time array, row [i] holds entry [i] of every array. *)
Theorem normalizer_never_truncates (parse : list cell -> parsing) (p : payload) :
  keeps_length parse ->
  (forall h : dict (list cell),
     hourly p = Some h -> h <> [] ->
     let time := dict_get_default "time" [] h in
     (Exists (fun kv => List.length (snd kv) <> List.length time
                        /\ List.length (snd kv) <> 1%nat) (hourly_columns h) ->
      (exists e : exn, hourly_to_df parse p = Raise e)
      /\ forall idx : DatetimeIndex,
           parse time = Parsed idx -> hourly_to_df parse p = Raise ValueError)
     /\ (forall df : DataFrame,
           hourly_to_df parse p = Ok df ->
           nrows df = List.length time
           /\ Forall2 (fun kv kw => fst kw = fst kv
                                    /\ laid_out (List.length time) (snd kv) (snd kw))
                (hourly_columns h) (columns df))
     /\ (forall idx : DatetimeIndex,
           parse time = Parsed idx ->
           Forall (fun kv => List.length (snd kv) = List.length time)
             (hourly_columns h) ->
           hourly_to_df parse p
           = Ok (mkDataFrame (Some "datetime") (tz_aware idx) (stamps idx)
                   (hourly_columns h))))
  /\ (forall d : dict (list cell),
        daily p = Some d -> d <> [] ->
        let time := dict_get_default "time" [] d in
        (Exists (fun kv => List.length (snd kv) <> List.length time
                           /\ List.length (snd kv) <> 1%nat) (daily_columns d) ->
         (exists e : exn, daily_to_df parse p = Raise e)
         /\ forall idx : DatetimeIndex,
              parse time = Parsed idx -> daily_to_df parse p = Raise ValueError)
        /\ (forall df : DataFrame,
              daily_to_df parse p = Ok df ->
              nrows df = List.length time
              /\ Forall2 (fun kv kw => fst kw = fst kv
                                       /\ laid_out (List.length time) (snd kv) (snd kw))
                   (daily_columns d) (columns df))
        /\ (forall idx : DatetimeIndex,
              parse time = Parsed idx ->
              Forall (fun kv => List.length (snd kv) = List.length time)
                (daily_columns d) ->
              daily_to_df parse p
              = Ok (mkDataFrame (Some "date") (tz_aware idx) (stamps idx)
                      (daily_columns d)))).
Proof.
  intros Hkeep. split.
  - intros h Hh Hne time.
    apply (block_never_truncated parse time (hourly_columns h) "datetime" _ Hkeep).
    now apply hourly_to_df_block.
  - intros d Hd Hne time.
    apply (block_never_truncated parse time (daily_columns d) "date" _ Hkeep).
    now apply daily_to_df_block.
Qed.

Lemma read_cells_length (l : list cell) (rs : list reading) :
  read_cells l = Some rs -> List.length rs = List.length l.
Proof.
  revert rs. induction l as [|c rest IH]; simpl; intros rs H.
  - now inversion H.
  - destruct (read_cell c); [|discriminate].
    destruct (read_cells rest) as [rs'|]; [|discriminate].
    inversion H; subst. simpl. f_equal. now apply IH.
Qed.

Lemma sample_keeps_length : keeps_length sample_to_datetime.
Proof.
  intros l idx. unfold sample_to_datetime.
  destruct (read_cells l) as [rs|] eqn:Er; [|discriminate].
  apply read_cells_length in Er.
  destruct (common_offset rs) as [[off|]|]; intros H; inversion H; subst;
    cbn; now rewrite length_map.
Qed.

Lemma normalizer_never_truncates_witness :
  hourly_to_df sample_to_datetime hourly_10_8 = Raise ValueError
  /\ (forall df : DataFrame,
        hourly_to_df sample_to_datetime hourly_3_1 = Ok df -> nrows df = 3%nat)
  /\ hourly_to_df sample_to_datetime sample_payload
     = Ok (mkDataFrame (Some "datetime") false [At 100; At 200; At 300]
             [ ("temperature_2m", numbers [10; 11; 12]);
               ("apparent_temperature", numbers [9; 10; 11]);
               ("precipitation", numbers [0; 0; 1]);
               ("weathercode", numbers [0; 1; 61]) ])
  /\ daily_to_df sample_to_datetime daily_3_2 = Raise ValueError.
Proof.
  split; [|split; [|split]].
  - destruct (normalizer_never_truncates sample_to_datetime hourly_10_8
                sample_keeps_length) as [H _].
    destruct (H _ eq_refl ltac:(discriminate)) as (Hbad & _).
    refine (proj2 (Hbad _) _ eq_refl).
    left. cbn. split; discriminate.
  - intros df Hdf.
    destruct (normalizer_never_truncates sample_to_datetime hourly_3_1
                sample_keeps_length) as [H _].
    destruct (H _ eq_refl ltac:(discriminate)) as (_ & Hok & _).
    exact (proj1 (Hok df Hdf)).
  - destruct (normalizer_never_truncates sample_to_datetime sample_payload
                sample_keeps_length) as [H _].
    destruct (H _ eq_refl ltac:(discriminate)) as (_ & _ & Hsame).
    apply (Hsame (mkDatetimeIndex false [At 100; At 200; At 300]) eq_refl).
    repeat constructor.
  - destruct (normalizer_never_truncates sample_to_datetime daily_3_2
                sample_keeps_length) as [_ H].
    destruct (H _ eq_refl ltac:(discriminate)) as (Hbad & _).
    refine (proj2 (Hbad _) _ eq_refl).
    left. cbn. split; discriminate.
Defined.

(** C1, as stated, fails: with ten timestamps and eight temperatures the
    hourly normalizer raises instead of returning eight rows, and so does
    the daily one with three dates and two maxima. *)
Lemma truncation_counterexample :
  hourly_to_df sample_to_datetime hourly_10_8 = Raise ValueError
  /\ ~ (exists df : DataFrame,
          hourly_to_df sample_to_datetime hourly_10_8 = Ok df /\ nrows df = 8%nat)
  /\ daily_to_df sample_to_datetime daily_3_2 = Raise ValueError
  /\ ~ (exists df : DataFrame,
          daily_to_df sample_to_datetime daily_3_2 = Ok df /\ nrows df = 2%nat).
Proof.
  repeat split.
  - intros [df [H _]]. discriminate H.
  - intros [df [H _]]. discriminate H.
Qed.

(** ** The 24-hour chart *)

Lemma combine_nil_r {A B : Type} (l : list A) : combine l (@nil B) = [].
Proof. now destruct l. Qed.

Lemma mask_combine {A B : Type} (m : list bool) (l : list A) (l' : list B) :
  mask m (combine l l') = combine (mask m l) (mask m l').
Proof.
  revert l l'. induction m as [|b m IH]; intros l l'.
  - now destruct l, l'.
  - destruct l as [|x l]; [reflexivity|].
    destruct l' as [|y l']; simpl.
    + now rewrite combine_nil_r.
    + destruct b; simpl; now rewrite IH.
Qed.

Lemma mask_index_filter {A B : Type} (f : A -> bool) (idx : list A) (rest : list B) :
  mask (map f idx) (combine idx rest)
  = filter (fun r => f (fst r)) (combine idx rest).
Proof.
  revert rest. induction idx as [|t idx IH]; intros rest.
  - reflexivity.
  - destruct rest as [|y rest]; [reflexivity|]. simpl.
    destruct (f t); now rewrite IH.
Qed.

Lemma mask_length {A B : Type} (m : list bool) (l : list A) (l' : list B) :
  List.length l = List.length l' ->
  List.length (mask m l) = List.length (mask m l').
Proof.
  revert l l'. induction m as [|b m IH]; intros l l' H.
  - now destruct l, l'.
  - destruct l as [|x l], l' as [|y l']; try discriminate; [reflexivity|].
    simpl. destruct b; simpl; auto.
Qed.

(** Filtering and truncating the three columns one by one gives the rows
    of the filtered, truncated series. *)
Lemma chart_rows_head_rows_from (now : Z) (n : nat) (idx : list stamp)
  (temp feel : list cell) :
  let keep := map (at_or_after now) idx in
  chart_rows (firstn n (mask keep idx)) (firstn n (mask keep temp))
    (firstn n (mask keep feel))
  = firstn n (filter (fun r => at_or_after now (chart_datetime r))
                (chart_rows idx temp feel)).
Proof.
  intros keep. unfold chart_rows.
  rewrite filter_map_swap, firstn_map. f_equal. simpl.
  rewrite <- !combine_firstn, <- !mask_combine. f_equal.
  apply (mask_index_filter (at_or_after now)).
Qed.

(** The chart on a frame with the columns of [hourly_to_df] and an index
    without timezone. *)
Lemma draw_24h_chart_hourly (now : Z) (times : list stamp)
  (temp feel prec code : list cell) :
  List.length temp = List.length times ->
  List.length feel = List.length times ->
  let df := mkDataFrame (Some "datetime") false times
              [ ("temperature_2m", temp); ("apparent_temperature", feel);
                ("precipitation", prec); ("weathercode", code) ] in
  draw_24h_chart now df
  = match upcoming now df with
    | [] => ([StInfo (if nonempty times then "No next-24-hour data available."
                      else "No hourly data available.")], Returned)
    | _ :: _ => ([StAltairChart (upcoming now df)], Val tt)
    end.
Proof.
  intros Ht Hf df.
  assert (Hup : upcoming now df
                = chart_rows (firstn 24 (mask (map (at_or_after now) times) times))
                    (firstn 24 (mask (map (at_or_after now) times) temp))
                    (firstn 24 (mask (map (at_or_after now) times) feel))).
  { unfold upcoming, entries. symmetry. apply chart_rows_head_rows_from. }
  rewrite Hup. clear Hup.
  set (keep := map (at_or_after now) times).
  unfold draw_24h_chart, df_empty, rows_from, df.
  cbn [index columns index_name index_tz_aware map fst snd nonempty negb orb].
  fold keep. rewrite !orb_false_r.
  destruct times as [|t0 times'] eqn:Etimes.
  { reflexivity. }
  rewrite <- Etimes in *. cbn [nonempty negb].
  assert (Hne : nonempty times = true) by now rewrite Etimes.
  rewrite Hne. cbn [negb lift bind ret app]. unfold head.
  cbn [index columns index_name index_tz_aware map fst snd].
  rewrite ?orb_false_r.
  assert (Hlt : List.length (firstn 24 (mask keep temp))
                = List.length (firstn 24 (mask keep times))).
  { rewrite !length_firstn. f_equal. now apply mask_length. }
  assert (Hlf : List.length (firstn 24 (mask keep feel))
                = List.length (firstn 24 (mask keep times))).
  { rewrite !length_firstn. f_equal. now apply mask_length. }
  destruct (firstn 24 (mask keep times)) as [|t1 rest] eqn:Eidx.
  - reflexivity.
  - cbn [nonempty negb].
    destruct (firstn 24 (mask keep temp)) as [|x xs]; [discriminate|].
    destruct (firstn 24 (mask keep feel)) as [|y ys]; [discriminate|].
    reflexivity.
Qed.

(** Against an index that carries a timezone the chart raises, unless the
    frame is empty. *)
Lemma draw_24h_chart_aware (now : Z) (name : option string) (times : list stamp)
  (cols : dict (list cell)) :
  times <> [] -> cols <> [] ->
  draw_24h_chart now (mkDataFrame name true times cols) = ([], Exc TypeError).
Proof.
  intros Ht Hc. unfold draw_24h_chart, df_empty. cbn [index columns].
  destruct times; [congruence|]. destruct cols; [congruence|]. reflexivity.
Qed.

(** What [hourly_to_df] can return: the empty frame, or a frame indexed by
    "datetime" whose four columns are as long as the index. *)
Lemma hourly_to_df_shape (parse : list cell -> parsing) (p : payload) (df : DataFrame) :
  hourly_to_df parse p = Ok df ->
  df = empty_frame
  \/ exists (aware : bool) (times : list stamp) (temp feel prec code : list cell),
       df = mkDataFrame (Some "datetime") aware times
              [ ("temperature_2m", temp); ("apparent_temperature", feel);
                ("precipitation", prec); ("weathercode", code) ]
       /\ List.length temp = List.length times
       /\ List.length feel = List.length times.
Proof.
  unfold hourly_to_df. intros H.
  destruct (negb (nonempty _)).
  - left. now inversion H.
  - right.
    apply (proj1 (frame_of_block parse _ _ "datetime")) in H
      as (idx & fitted & _ & Ef & ->).
    cbn [fit_columns] in Ef.
    destruct (fit_column _ _) as [temp|] eqn:E1; [|discriminate].
    destruct (fit_column _ (dict_get_default "apparent_temperature" _ _))
      as [feel|] eqn:E2; [|discriminate].
    destruct (fit_column _ (dict_get_default "precipitation" _ _))
      as [prec|]; [|discriminate].
    destruct (fit_column _ (dict_get_default "weathercode" _ _))
      as [code|]; [|discriminate].
    inversion Ef; subst.
    apply fit_column_spec in E1 as [_ E1]. apply fit_column_spec in E2 as [_ E2].
    exists (tz_aware idx), (stamps idx), temp, feel, prec, code. now repeat split.
Qed.

Lemma entries_cover_frame (aware : bool) (times : list stamp)
  (temp feel prec code : list cell) :
  List.length temp = List.length times ->
  List.length feel = List.length times ->
  map chart_datetime
    (entries (mkDataFrame (Some "datetime") aware times
                [ ("temperature_2m", temp); ("apparent_temperature", feel);
                  ("precipitation", prec); ("weathercode", code) ]))
  = times.
Proof.
  unfold entries, chart_rows. cbn. revert temp feel.
  induction times as [|t times IH]; intros temp feel Ht Hf.
  - reflexivity.
  - destruct temp as [|x temp]; [discriminate|].
    destruct feel as [|y feel]; [discriminate|].
    cbn. f_equal. apply IH; [now inversion Ht|now inversion Hf].
Qed.

Lemma in_firstn {A : Type} (n : nat) (l : list A) (x : A) :
  In x (firstn n l) -> In x l.
Proof.
  revert l. induction n as [|n IH]; intros [|y l]; simpl; try contradiction.
  intros [Hx|Hx]; [now left|right; now apply IH].
Qed.

(** C6, as the code has it.  The entries of an hourly series are all its
    rows.  When the index of the series carries no timezone, the chart
    plots the first at most 24 entries whose timestamp is an instant at or
    after [now], in series order, and when there is none it shows an
    informational placeholder and no chart.  When the index carries a
    timezone and the series has rows, comparing it with [now] raises
    [TypeError]: neither chart nor placeholder is shown. *)
Theorem chart_plots_next_24_entries
  (parse : list cell -> parsing) (p : payload) (df : DataFrame) (now : Z) :
  hourly_to_df parse p = Ok df ->
  map chart_datetime (entries df) = index df
  /\ upcoming now df
     = firstn 24 (filter (fun r => at_or_after now (chart_datetime r)) (entries df))
  /\ (List.length (upcoming now df) <= 24)%nat
  /\ Forall (fun r => exists t : Z, chart_datetime r = At t /\ now <= t)
       (upcoming now df)
  /\ (index_tz_aware df = false ->
      (upcoming now df <> [] ->
       draw_24h_chart now df = ([StAltairChart (upcoming now df)], Val tt))
      /\ (upcoming now df = [] ->
          exists msg : string, draw_24h_chart now df = ([StInfo msg], Returned)))
  /\ (index_tz_aware df = true -> nrows df <> 0%nat ->
      draw_24h_chart now df = ([], Exc TypeError)).
Proof.
  intros H. split; [|split; [reflexivity|split; [apply firstn_le_length|split]]].
  - apply hourly_to_df_shape in H
      as [->|(aware & times & temp & feel & prec & code & -> & Ht & Hf)].
    + reflexivity.
    + now apply entries_cover_frame.
  - apply Forall_forall. intros r Hin. unfold upcoming in Hin.
    apply in_firstn, filter_In in Hin. destruct Hin as [_ Hin].
    destruct (chart_datetime r) as [|t]; [discriminate|].
    exists t. split; [reflexivity|now apply Z.leb_le].
  - apply hourly_to_df_shape in H
      as [->|(aware & times & temp & feel & prec & code & -> & Ht & Hf)].
    + split.
      * intros _. split; [intros Hne; now contradiction Hne|].
        intros _. now eexists.
      * intros Haware. discriminate Haware.
    + split.
      * cbn [index_tz_aware]. intros ->.
        rewrite (draw_24h_chart_hourly now times temp feel prec code Ht Hf).
        split; intros Hup.
        -- destruct (upcoming now _); [now contradiction Hup|reflexivity].
        -- rewrite Hup. now eexists.
      * cbn [index_tz_aware]. unfold nrows. cbn [index]. intros -> Hrows.
        apply draw_24h_chart_aware; [|discriminate].
        intros ->. now apply Hrows.
Qed.

Lemma chart_plots_next_24_entries_witness :
  draw_24h_chart 150
    (mkDataFrame (Some "datetime") false [At 100; At 200; At 300]
       [ ("temperature_2m", numbers [10; 11; 12]);
         ("apparent_temperature", numbers [9; 10; 11]);
         ("precipitation", numbers [0; 0; 1]);
         ("weathercode", numbers [0; 1; 61]) ])
  = ([StAltairChart [ mkChartRow (At 200) (CNum (11 # 1)) (CNum (10 # 1));
                      mkChartRow (At 300) (CNum (12 # 1)) (CNum (11 # 1)) ]], Val tt).
Proof.
  pose proof (chart_plots_next_24_entries sample_to_datetime sample_payload _ 150 eq_refl)
    as (_ & _ & _ & _ & H & _).
  apply (H eq_refl). discriminate.
Defined.

(** C6, as stated, fails: three hours sent with a UTC offset make a series
    of three rows, all of them after time 0, and the chart raises instead
    of plotting them or showing a placeholder. *)
Lemma aware_series_counterexample :
  exists df : DataFrame,
    hourly_to_df sample_to_datetime hourly_with_offset = Ok df
    /\ nrows df = 3%nat
    /\ List.length (upcoming 0 df) = 3%nat
    /\ draw_24h_chart 0 df = ([], Exc TypeError).
Proof.
  eexists. split; [reflexivity|]. repeat split.
Qed.

(** ** The request flow *)

Lemma ending_bind {A B : Type} (p : prog A) (f : A -> prog B) :
  ending (bind p f)
  = match ending p with
    | Val a => ending (f a)
    | Exc e => Exc e
    | Returned => Returned
    end.
Proof.
  destruct p as [t [a|e|]]; cbn; [|reflexivity|reflexivity].
  now destruct (f a).
Qed.

Lemma password_gate_run (s : session) :
  password_gate s
  = if str_truthy (getenv (WEATHER_APP_PASSWORD s) "") then
      if String.eqb (password_typed s) (getenv (WEATHER_APP_PASSWORD s) "")
      then (gate_prompt, Val tt)
      else ((gate_prompt ++ [StSidebarWarning "Enter password to continue"])%list, Returned)
    else ([], Val tt).
Proof.
  unfold password_gate, st_sidebar_text_input.
  destruct (str_truthy _); [|reflexivity].
  cbn. destruct (String.eqb _ _); reflexivity.
Qed.

Lemma form_run (s : session) :
  form s
  = if submit_clicked s then
      if str_truthy (strip (city_typed s))
      then (form_widgets,
            Val (city_typed s,
                 nth_error ["metric"; "imperial"] (Nat.min (units_picked s) 1),
                 timezone_typed s))
      else ((form_widgets ++ [StError (text "Please enter a city name.")])%list, Returned)
    else ((form_widgets
             ++ [StInfo "Type a city and click 'Get Weather' to fetch data."])%list,
          Returned).
Proof.
  unfold form, st_text_input, st_selectbox, st_button. cbn.
  destruct (submit_clicked s); [|reflexivity]. cbn.
  destruct (str_truthy _); reflexivity.
Qed.

Lemma geocode_city_run (net : network) (city : string) (n : Z) :
  geocode_city net city n
  = ([HttpGet GEOCODING_URL (geocode_params city n)],
     match geocoding_api net (geocode_params city n) with
     | Raise e => Exc e
     | Ok resp =>
         match raise_for_status resp with
         | Raise e => Exc e
         | Ok _ =>
             match json resp with
             | Raise e => Exc e
             | Ok data =>
                 match results data with
                 | Some (m :: l) => Val (Some (m :: l))
                 | _ => Val None
                 end
             end
         end
     end).
Proof.
  unfold geocode_city. cbn.
  destruct (geocoding_api net _) as [resp|e]; [|reflexivity]. cbn.
  destruct (raise_for_status resp) as [[]|e]; [|reflexivity]. cbn.
  destruct (json resp) as [data|e]; [|reflexivity]. cbn.
  destruct (results data) as [[|m l]|]; reflexivity.
Qed.

Lemma find_matches_run (net : network) (city : string) :
  find_matches net city
  = let req := HttpGet GEOCODING_URL (geocode_params city 5) in
    match ending (geocode_city net city 5) with
    | Exc e =>
        ([StSpinner "Geocoding..."; req; StError [Lit "Geocoding failed: "; StrExn e]],
         Returned)
    | Val (Some (m :: l)) => ([StSpinner "Geocoding..."; req], Val (m :: l))
    | _ => ([StSpinner "Geocoding..."; req; not_found_warning], Returned)
    end.
Proof.
  unfold find_matches. rewrite geocode_city_run. unfold ending. cbn [snd].
  destruct (geocoding_api net _) as [resp|e]; [|reflexivity].
  destruct (raise_for_status resp) as [[]|e]; [|reflexivity].
  destruct (json resp) as [data|e]; [|reflexivity].
  destruct (results data) as [[|m l]|]; reflexivity.
Qed.

Lemma str_truthy_empty (x : string) : str_truthy x = false <-> x = "".
Proof. destruct x; simpl; split; congruence. Qed.

(** C9: with a password configured and another one typed, the run shows the
    page header and the gate prompt, then returns: nothing of the report is
    rendered and no request is sent. *)
Theorem password_gate_blocks
  (parse : list cell -> parsing) (net : network) (s : session) (secret : string) :
  WEATHER_APP_PASSWORD s = Some secret ->
  secret <> "" ->
  password_typed s <> secret ->
  main parse net s
  = ([ StSetPageConfig "Weather Report" "centered";
       StTitle "🌤️ Weather Report";
       StSidebarMarkdown "App access protected";
       StSidebarTextInput "Enter app password";
       StSidebarWarning "Enter password to continue" ], Returned)
  /\ requests_of (trace (main parse net s)) = [].
Proof.
  intros Hpw Hsecret Htyped.
  assert (Hrun : main parse net s
                 = ([ StSetPageConfig "Weather Report" "centered";
                      StTitle "🌤️ Weather Report";
                      StSidebarMarkdown "App access protected";
                      StSidebarTextInput "Enter app password";
                      StSidebarWarning "Enter password to continue" ], Returned)).
  { unfold main. rewrite password_gate_run, Hpw. cbn [getenv].
    replace (str_truthy secret) with true
      by (destruct secret; [congruence|reflexivity]).
    apply String.eqb_neq in Htyped. rewrite Htyped. reflexivity. }
  split; [exact Hrun|]. now rewrite Hrun.
Qed.

Lemma password_gate_blocks_witness :
  requests_of (trace (main sample_to_datetime net_two_matches locked_session)) = [].
Proof.
  apply (proj2 (password_gate_blocks sample_to_datetime net_two_matches locked_session "abc"
                  eq_refl ltac:(discriminate) ltac:(discriminate))).
Defined.

(** C7: when the city is blank after [strip], the run sends no request and
    ends by a [return]; past the gate and with the button clicked, the last
    thing it shows is the error "Please enter a city name.". *)
Theorem blank_city_halts
  (parse : list cell -> parsing) (net : network) (s : session) :
  strip (city_typed s) = "" ->
  requests_of (trace (main parse net s)) = []
  /\ ending (main parse net s) = Returned
  /\ (gate_open s = true -> submit_clicked s = true ->
      main parse net s
      = ((page_header
            ++ (if str_truthy (getenv (WEATHER_APP_PASSWORD s) "")
                then gate_prompt else [])
            ++ form_widgets
            ++ [StError (text "Please enter a city name.")])%list, Returned)).
Proof.
  intros Hblank. apply str_truthy_empty in Hblank.
  unfold main, gate_open. rewrite password_gate_run, form_run, Hblank.
  destruct (str_truthy (getenv _ _));
    [destruct (String.eqb _ _)|]; destruct (submit_clicked s);
    repeat split; intros; try discriminate; reflexivity.
Qed.

Lemma blank_city_halts_witness :
  requests_of (trace (main sample_to_datetime net_two_matches blank_session)) = []
  /\ ending (main sample_to_datetime net_two_matches blank_session) = Returned.
Proof.
  pose proof (blank_city_halts sample_to_datetime net_two_matches blank_session eq_refl)
    as (Hreq & Hend & _).
  split; [exact Hreq|exact Hend].
Defined.

(** C4: when the geocoding answer has no results, [geocode_city] returns
    [None] without raising, and the run (past the gate, button clicked,
    city not blank) shows the "Location not found" warning and returns;
    its only request is the geocoding one, so no forecast is requested. *)
Theorem no_match_halts_before_forecast
  (parse : list cell -> parsing) (net : network) (s : session)
  (resp : Response geocoding_data) (data : geocoding_data) :
  gate_open s = true ->
  submit_clicked s = true ->
  strip (city_typed s) <> "" ->
  geocoding_api net (geocode_params (city_typed s) 5) = Ok resp ->
  raise_for_status resp = Ok tt ->
  json_body resp = Some data ->
  results data = None \/ results data = Some [] ->
  let req := HttpGet GEOCODING_URL (geocode_params (city_typed s) 5) in
  geocode_city net (city_typed s) 5 = ([req], Val None)
  /\ main parse net s
     = ((page_header
           ++ (if str_truthy (getenv (WEATHER_APP_PASSWORD s) "")
               then gate_prompt else [])
           ++ form_widgets
           ++ [StSpinner "Geocoding..."; req; not_found_warning])%list, Returned)
  /\ requests_of (trace (main parse net s)) = [req].
Proof.
  intros Hgate Hsubmit Hcity Hget Hstatus Hbody Hnone req.
  assert (Hgeo : geocode_city net (city_typed s) 5 = ([req], Val None)).
  { rewrite geocode_city_run, Hget, Hstatus. unfold json. rewrite Hbody.
    destruct Hnone as [->| ->]; reflexivity. }
  assert (Hcity' : str_truthy (strip (city_typed s)) = true).
  { destruct (str_truthy _) eqn:E; [reflexivity|].
    now apply str_truthy_empty in E. }
  assert (Hmain : main parse net s
     = ((page_header
           ++ (if str_truthy (getenv (WEATHER_APP_PASSWORD s) "")
               then gate_prompt else [])
           ++ form_widgets
           ++ [StSpinner "Geocoding..."; req; not_found_warning])%list, Returned)).
  { unfold main, gate_open in *.
    rewrite password_gate_run, form_run, Hsubmit, Hcity'.
    destruct (str_truthy (getenv _ _)); cbn [negb orb] in Hgate;
      try rewrite Hgate; cbn [bind emit fst snd];
      rewrite find_matches_run, Hgeo; reflexivity. }
  repeat split; [exact Hgeo|exact Hmain|].
  rewrite Hmain. unfold trace. cbn [fst].
  destruct (str_truthy (getenv _ _)); reflexivity.
Qed.

Lemma no_match_halts_before_forecast_witness :
  requests_of (trace (main sample_to_datetime net_no_match sample_session))
  = [HttpGet GEOCODING_URL (geocode_params "London" 5)].
Proof.
  apply (no_match_halts_before_forecast sample_to_datetime net_no_match sample_session
           (mkResponse 200 (Some (mkGeocodingData None))) (mkGeocodingData None)
           eq_refl eq_refl ltac:(discriminate) eq_refl eq_refl eq_refl
           (or_introl eq_refl)).
Defined.

(** ** The forecast request *)

(** C2: the query of [fetch_weather] does not mention [units]: two calls
    that differ only in [units] send the same request and return the same
    data, and a run of [main] is the same whichever unit is picked. *)
Theorem units_do_not_reach_the_request
  (parse : list cell -> parsing) (net : network) (lat lon : Q) (timezone : string)
  (u1 u2 : option string) (s : session) (n : nat) :
  forecast_params lat lon timezone u1 = forecast_params lat lon timezone u2
  /\ fetch_weather net lat lon timezone u1 = fetch_weather net lat lon timezone u2
  /\ main parse net (with_units_picked s n) = main parse net s.
Proof.
  repeat split.
  unfold main. rewrite !form_run.
  change (password_gate (with_units_picked s n)) with (password_gate s).
  cbn [with_units_picked city_typed timezone_typed submit_clicked match_picked
       units_picked].
  destruct (submit_clicked s); destruct (str_truthy (strip (city_typed s)));
    reflexivity.
Qed.


(** ** Exceptions of the run *)

Section NeverRaises.

Variable bad : exn.

Lemma nr_ret {A : Type} (a : A) : never_raises bad (ret a).
Proof. discriminate. Qed.

Lemma nr_emit (e : event) : never_raises bad (emit e).
Proof. discriminate. Qed.

Lemma nr_return {A : Type} : never_raises bad (@return_ A).
Proof. discriminate. Qed.

Lemma nr_raise {A : Type} (e : exn) : e <> bad -> never_raises bad (@raise A e).
Proof. intros H E. cbn in E. inversion E. contradiction. Qed.

Lemma nr_lift {A : Type} (r : result A) :
  r <> Raise bad -> never_raises bad (lift r).
Proof. intros H E. destruct r; [discriminate|]. cbn in E. inversion E. congruence. Qed.

Lemma nr_bind {A B : Type} (p : prog A) (f : A -> prog B) :
  never_raises bad p -> (forall a, ending p = Val a -> never_raises bad (f a)) ->
  never_raises bad (bind p f).
Proof.
  unfold never_raises. intros Hp Hf. rewrite ending_bind.
  destruct (ending p) as [a|e|]; [now apply Hf| |discriminate].
  intros E. apply Hp. now inversion E.
Qed.

Lemma nr_try_except {A : Type} (p : prog A) (h : exn -> prog A) :
  (forall e, never_raises bad (h e)) -> never_raises bad (try_except p h).
Proof.
  unfold never_raises, try_except, ending. intros Hh.
  destruct p as [t [a|e|]]; cbn; try discriminate.
  specialize (Hh e). destruct (h e). exact Hh.
Qed.

Lemma nr_call (p : prog unit) : never_raises bad p -> never_raises bad (call p).
Proof.
  unfold never_raises, call, ending. destruct p as [t [a|e|]]; cbn; auto.
  discriminate.
Qed.

End NeverRaises.

(** Walks down a run, statement by statement. *)
Ltac step_flow :=
  repeat (cbv beta zeta;
          lazymatch goal with
          | |- never_raises _ (ret _) => apply nr_ret
          | |- never_raises _ (emit _) => apply nr_emit
          | |- never_raises _ return_ => apply nr_return
          | |- never_raises _ (call _) => apply nr_call
          | |- never_raises _ (try_except _ _) => apply nr_try_except; intros
          | |- never_raises _ (bind _ _) => apply nr_bind; [|intros]
          end).

Lemma column_raises (k : string) (df : DataFrame) : column k df <> Raise IndexError.
Proof. unfold column. destruct (dict_get k _); discriminate. Qed.

Lemma index_column_raises (k : string) (df : DataFrame) :
  index_column k df <> Raise IndexError.
Proof.
  unfold index_column. destruct (index_name df); [|discriminate].
  destruct (String.eqb k s); discriminate.
Qed.

Lemma to_datetime_raises (parse : list cell -> parsing) (l : list cell) (e : exn) :
  to_datetime parse l = Raise e -> e = ValueError \/ e = TypeError.
Proof.
  unfold to_datetime. destruct (parse l) as [idx|[|]]; intros H; inversion H; auto.
Qed.

Lemma hourly_to_df_raises (parse : list cell -> parsing) (p : payload) (e : exn) :
  hourly_to_df parse p = Raise e -> e = ValueError \/ e = TypeError.
Proof.
  unfold hourly_to_df. destruct (negb _); [discriminate|].
  destruct (to_datetime parse _) eqn:Et.
  - unfold pd_DataFrame. destruct (fit_columns _ _); [discriminate|].
    intros H. inversion H. now left.
  - intros H. inversion H; subst. eapply to_datetime_raises; eauto.
Qed.

Lemma daily_to_df_raises (parse : list cell -> parsing) (p : payload) (e : exn) :
  daily_to_df parse p = Raise e -> e = ValueError \/ e = TypeError.
Proof.
  unfold daily_to_df. destruct (negb _); [discriminate|].
  destruct (to_datetime parse _) eqn:Et.
  - unfold pd_DataFrame. destruct (fit_columns _ _); [discriminate|].
    intros H. inversion H. now left.
  - intros H. inversion H; subst. eapply to_datetime_raises; eauto.
Qed.

Lemma rows_from_raises (now : Z) (df : DataFrame) :
  rows_from now df <> Raise IndexError.
Proof. unfold rows_from. destruct (index_tz_aware df); discriminate. Qed.

Lemma render_current_card_nr (p : payload) (label : string) :
  never_raises IndexError (render_current_card p label).
Proof.
  unfold render_current_card. destruct (negb _); step_flow.
Qed.

Lemma draw_24h_chart_nr (now : Z) (df : DataFrame) :
  never_raises IndexError (draw_24h_chart now df).
Proof.
  unfold draw_24h_chart. destruct (df_empty df); [step_flow|].
  step_flow; [apply nr_lift; apply rows_from_raises|].
  destruct (df_empty _); step_flow;
    apply nr_lift; auto using column_raises, index_column_raises.
Qed.

Lemma show_daily_summary_nr (df : DataFrame) :
  never_raises IndexError (show_daily_summary df).
Proof.
  unfold show_daily_summary. destruct (df_empty df); step_flow;
    apply nr_lift; auto using column_raises, index_column_raises.
Qed.

Lemma report_nr (parse : list cell -> parsing) (net : network) (s : session)
  (units : option string) (tz : string) (m : place) :
  never_raises IndexError (report parse net s units tz m).
Proof.
  unfold report. step_flow.
  destruct (latitude m); [|now apply nr_raise].
  destruct (longitude m); [|now apply nr_raise].
  step_flow;
    auto using render_current_card_nr, draw_24h_chart_nr, show_daily_summary_nr.
  - apply nr_lift. intros Hr. apply hourly_to_df_raises in Hr as [Hr|Hr]; discriminate.
  - apply nr_lift. intros Hr. apply daily_to_df_raises in Hr as [Hr|Hr]; discriminate.
Qed.

(** ** Selecting a match *)

Lemma match_label_raises (m : place) (e : exn) :
  match_label m = Raise e -> e = TypeError.
Proof.
  unfold match_label, format_f.
  destruct (latitude m); [|now inversion 1].
  destruct (longitude m); [discriminate|now inversion 1].
Qed.

Lemma match_labels_raises (l : list place) (e : exn) :
  match_labels l = Raise e -> e = TypeError.
Proof.
  induction l as [|m l IH]; simpl; [discriminate|].
  destruct (match_label m) eqn:Em.
  - destruct (match_labels l); [discriminate|]. intros H. inversion H; subst. auto.
  - intros H. inversion H; subst. eapply match_label_raises; eauto.
Qed.

Lemma match_labels_each (l : list place) (options : list string) :
  match_labels l = Ok options ->
  Forall2 (fun m label => match_label m = Ok label) l options.
Proof.
  revert options. induction l as [|m l IH]; simpl; intros options H.
  - inversion H. constructor.
  - destruct (match_label m) eqn:Em; [|discriminate].
    destruct (match_labels l); [|discriminate].
    inversion H; subst. constructor; auto.
Qed.

Lemma Forall2_nth_error_r {A B : Type} (R : A -> B -> Prop) (l : list A)
  (l' : list B) (i : nat) (y : B) :
  Forall2 R l l' -> nth_error l' i = Some y ->
  exists x : A, nth_error l i = Some x /\ R x y.
Proof.
  intros H. revert i. induction H as [|a b l l' Hab _ IH]; intros [|i] Hi;
    simpl in *; try discriminate.
  - inversion Hi; subst. eauto.
  - now apply IH.
Qed.

Lemma index_of_first (x : string) (l : list string) :
  In x l ->
  exists i : nat,
    index_of x l = Ok i /\ nth_error l i = Some x
    /\ (forall j : nat, (j < i)%nat -> nth_error l j <> Some x).
Proof.
  induction l as [|y l IH]; simpl; [contradiction|]. intros Hin.
  destruct (String.eqb_spec y x) as [->|Hne].
  - exists O. repeat split. intros j Hj. lia.
  - destruct Hin as [Heq|Hin]; [contradiction|].
    destruct (IH Hin) as (i & Hi & Hnth & Hfirst). rewrite Hi.
    exists (S i). repeat split; [exact Hnth|].
    intros [|j] Hj; simpl.
    + congruence.
    + apply Hfirst. lia.
Qed.

Lemma index_of_nodup (x : string) (l : list string) (k : nat) :
  NoDup l -> nth_error l k = Some x -> index_of x l = Ok k.
Proof.
  intros Hnd. revert k. induction Hnd as [|y l Hy _ IH]; intros [|k] Hk;
    simpl in *; try discriminate.
  - inversion Hk; subst. now rewrite String.eqb_refl.
  - destruct (String.eqb_spec y x) as [->|Hne].
    + exfalso. apply Hy. eapply nth_error_In; eauto.
    + now rewrite (IH _ Hk).
Qed.

Lemma select_place_many (matches : list place) (picked : nat) (options : list string) :
  (1 < List.length matches)%nat ->
  match_labels matches = Ok options ->
  exists (choice : string) (idx : nat) (place : place),
    nth_error options (Nat.min picked (Nat.pred (List.length options))) = Some choice
    /\ select_place matches picked
       = ([StSelectbox "Multiple matches found — choose one" options], Val place)
    /\ nth_error matches idx = Some place
    /\ match_label place = Ok choice
    /\ (forall j : nat, (j < idx)%nat -> nth_error options j <> Some choice)
    /\ (NoDup options -> idx = Nat.min picked (Nat.pred (List.length options))).
Proof.
  intros Hlen Hlabels.
  pose proof (match_labels_each _ _ Hlabels) as Heach.
  pose proof (Forall2_length Heach) as Hsame.
  destruct (nth_error options (Nat.min picked (Nat.pred (List.length options))))
    as [choice|] eqn:Echoice.
  2:{ apply nth_error_None in Echoice. lia. }
  destruct (index_of_first choice options) as (idx & Hidx & Hnth & Hfirst).
  { eapply nth_error_In; eauto. }
  destruct (Forall2_nth_error_r _ _ _ _ _ Heach Hnth) as (place & Hplace & Hlabel).
  exists choice, idx, place. repeat split; auto.
  - unfold select_place, st_selectbox.
    replace (1 <? List.length matches)%nat with true
      by (symmetry; now apply Nat.ltb_lt).
    rewrite Hlabels. cbn [lift bind ret emit app]. rewrite Echoice.
    cbn [list_index]. rewrite Hidx. cbn [lift bind ret app].
    unfold list_item. rewrite Hplace. reflexivity.
  - intros Hnd. pose proof (index_of_nodup _ _ _ Hnd Echoice). congruence.
Qed.

Lemma select_place_nr (matches : list place) (picked : nat) :
  matches <> [] -> never_raises IndexError (select_place matches picked).
Proof.
  intros Hne. destruct (1 <? List.length matches)%nat eqn:Elen.
  - apply Nat.ltb_lt in Elen.
    destruct (match_labels matches) as [options|e] eqn:Elabels.
    + destruct (select_place_many matches picked options Elen Elabels)
        as (choice & idx & place & _ & Hrun & _).
      unfold never_raises. now rewrite Hrun.
    + unfold never_raises, select_place.
      replace (1 <? List.length matches)%nat with true
        by (symmetry; now apply Nat.ltb_lt).
      rewrite Elabels. apply match_labels_raises in Elabels. now subst.
  - unfold never_raises, select_place. rewrite Elen.
    destruct matches; [congruence|]. discriminate.
Qed.

Lemma string_app_assoc (a b c : string) : (a ++ b) ++ c = a ++ b ++ c.
Proof. induction a as [|x a IH]; simpl; [reflexivity|now rewrite IH]. Qed.

Lemma string_length_app (a b : string) :
  String.length (a ++ b) = (String.length a + String.length b)%nat.
Proof. induction a as [|x a IH]; simpl; [reflexivity|now rewrite IH]. Qed.

Lemma list_ascii_of_string_app (a b : string) :
  list_ascii_of_string (a ++ b)
  = (list_ascii_of_string a ++ list_ascii_of_string b)%list.
Proof. induction a as [|x a IH]; simpl; [reflexivity|now rewrite IH]. Qed.

Lemma digit_char_is_digit (v : Z) : is_digit (digit_char v) = true.
Proof.
  unfold is_digit, digit_char.
  pose proof (Z.mod_pos_bound v 10 ltac:(lia)) as Hb.
  rewrite nat_ascii_embedding by lia.
  apply andb_true_iff. split; apply Nat.leb_le; lia.
Qed.

Lemma digits_fixed_length (n : nat) (v : Z) : String.length (digits_fixed n v) = n.
Proof.
  revert v. induction n as [|n IH]; intros v; simpl; [reflexivity|].
  rewrite string_length_app, IH. simpl. lia.
Qed.

Lemma digits_fixed_digits (n : nat) (v : Z) :
  forallb is_digit (list_ascii_of_string (digits_fixed n v)) = true.
Proof.
  revert v. induction n as [|n IH]; intros v; simpl; [reflexivity|].
  rewrite list_ascii_of_string_app, forallb_app, IH.
  cbn [list_ascii_of_string forallb andb]. now rewrite digit_char_is_digit.
Qed.

Lemma fixed_has_decimals (n : nat) (x : Q) : has_decimals (S n) (fixed (S n) x).
Proof.
  unfold has_decimals, fixed.
  eexists (_ ++ _), _. split; [|split].
  - rewrite string_app_assoc. reflexivity.
  - apply digits_fixed_length.
  - apply digits_fixed_digits.
Qed.

Lemma match_label_form (m : place) (label : string) :
  match_label m = Ok label -> label_of m label.
Proof.
  unfold match_label, format_f, label_of.
  destruct (latitude m) as [lat|]; [|discriminate].
  destruct (longitude m) as [lon|]; [|discriminate].
  intros H. inversion H; subst. exists lat, lon.
  repeat split; apply fixed_has_decimals.
Qed.

(** C8: a single match is selected as it is, with no widget drawn.  With
    several matches the selectbox offers one label per match, each of the
    form "name, admin1 country (lat,lon)" with three decimals; the place
    selected is the first match that bears the label chosen, which is the
    match picked when the labels are distinct. *)
Theorem selection_step (picked : nat) :
  (forall m : place, select_place [m] picked = ([], Val m))
  /\ (forall (matches : list place) (options : list string),
        (1 < List.length matches)%nat ->
        match_labels matches = Ok options ->
        Forall2 label_of matches options
        /\ exists (choice : string) (idx : nat) (place : place),
             nth_error options (Nat.min picked (Nat.pred (List.length options)))
             = Some choice
             /\ select_place matches picked
                = ([StSelectbox "Multiple matches found — choose one" options],
                   Val place)
             /\ nth_error matches idx = Some place
             /\ label_of place choice
             /\ (forall j : nat, (j < idx)%nat -> nth_error options j <> Some choice)
             /\ (NoDup options ->
                 idx = Nat.min picked (Nat.pred (List.length options)))).
Proof.
  split.
  - reflexivity.
  - intros matches options Hlen Hlabels. split.
    + eapply Forall2_impl; [|apply match_labels_each; exact Hlabels].
      intros m label. apply match_label_form.
    + destruct (select_place_many matches picked options Hlen Hlabels)
        as (choice & idx & place & H1 & H2 & H3 & H4 & H5 & H6).
      exists choice, idx, place. repeat split; auto.
      now apply match_label_form.
Qed.

Lemma selection_step_witness :
  Forall2 label_of [london; london_ontario]
    [ "London, England United Kingdom (51.507,-0.128)";
      "London, Ontario Canada (42.983,-81.250)" ].
Proof.
  apply (proj2 (selection_step 1) [london; london_ontario]).
  - simpl. lia.
  - vm_compute. reflexivity.
Defined.

(** ** What [geocode_city] returns *)

(** C10: [geocode_city] never returns an empty list: an answer whose
    results are absent or empty gives [None].  The matches [main] goes on
    with are therefore never empty, and no run of [main] ends in an
    [IndexError]. *)
Theorem geocode_city_never_returns_empty_list
  (parse : list cell -> parsing) (net : network) :
  (forall (city : string) (n : Z),
     ending (geocode_city net city n) <> Val (Some []))
  /\ (forall (city : string) (n : Z) (resp : Response geocoding_data)
        (data : geocoding_data),
        geocoding_api net (geocode_params city n) = Ok resp ->
        raise_for_status resp = Ok tt ->
        json_body resp = Some data ->
        results data = None \/ results data = Some [] ->
        ending (geocode_city net city n) = Val None)
  /\ (forall (city : string) (matches : list place),
        ending (find_matches net city) = Val matches -> matches <> [])
  /\ (forall s : session, never_raises IndexError (main parse net s)).
Proof.
  repeat split.
  - intros city n. rewrite geocode_city_run. unfold ending. cbn [snd].
    destruct (geocoding_api net _) as [resp|e]; [|discriminate].
    destruct (raise_for_status resp) as [[]|e]; [|discriminate].
    destruct (json resp) as [data|e]; [|discriminate].
    destruct (results data) as [[|m l]|]; discriminate.
  - intros city n resp data Hget Hstatus Hbody Hnone.
    rewrite geocode_city_run, Hget, Hstatus. unfold json. rewrite Hbody.
    destruct Hnone as [->| ->]; reflexivity.
  - intros city matches. rewrite find_matches_run. cbn zeta.
    destruct (ending (geocode_city net city 5)) as [[[|m l]|]|e|];
      unfold ending; cbn [snd]; intros H; inversion H. discriminate.
  - intros s. unfold main. step_flow.
    + rewrite password_gate_run.
      destruct (str_truthy _); [destruct (String.eqb _ _)|]; discriminate.
    + rewrite form_run.
      destruct (submit_clicked s); [destruct (str_truthy _)|]; discriminate.
    + rewrite find_matches_run. cbn zeta.
      destruct (ending (geocode_city net _ 5)) as [[[|m l]|]|e|]; discriminate.
    + apply select_place_nr.
      match goal with
      | H : ending (find_matches _ _) = Val _ |- _ =>
          revert H; rewrite find_matches_run; cbn zeta;
          destruct (ending (geocode_city net _ 5)) as [[[|m l]|]|e|];
          unfold ending; cbn [snd]; intros H; inversion H
      end. discriminate.
    + apply report_nr.
Qed.

Lemma geocode_city_never_returns_empty_list_witness :
  ending (geocode_city net_no_match "London" 5) = Val None.
Proof.
  apply (proj1 (proj2 (geocode_city_never_returns_empty_list sample_to_datetime net_no_match))
           "London" 5 (mkResponse 200 (Some (mkGeocodingData None)))
           (mkGeocodingData None) eq_refl eq_refl eq_refl (or_introl eq_refl)).
Defined.

(** * Further properties *)

(** ** More on the weather codes *)

Lemma WEATHER_CODE_MAP_entries_named :
  forallb (fun kv : Z * (string * string) =>
             negb (String.eqb (fst (snd kv)) "Unknown")
             && negb (String.eqb (snd (snd kv)) "❓"))
    WEATHER_CODE_MAP = true.
Proof. vm_compute. reflexivity. Qed.

Lemma code_map_get_in (code : Z) (table : list (Z * (string * string)))
  (default : string * string) :
  In code (map fst table) -> In (code, code_map_get code table default) table.
Proof.
  induction table as [|[k v] rest IH]; simpl; [contradiction|]. intros Hin.
  destruct (Z.eqb_spec k code) as [->|Hne]; [now left|].
  right. apply IH. destruct Hin; [contradiction|assumption].
Qed.

(** X1: the fallbacks tell exactly the unknown codes: a code is described
    as "Unknown" if and only if it is no key of the table, and it gets the
    glyph "❓" under the same condition. *)
Theorem fallback_marks_unknown_codes (code : Z) :
  (code_to_desc code = "Unknown" <-> ~ In code (map fst WEATHER_CODE_MAP))
  /\ (code_to_emoji code = "❓" <-> ~ In code (map fst WEATHER_CODE_MAP)).
Proof.
  assert (Hknown : In code (map fst WEATHER_CODE_MAP) ->
                   code_to_desc code <> "Unknown" /\ code_to_emoji code <> "❓").
  { intros Hin. unfold code_to_desc, code_to_emoji.
    pose proof (code_map_get_in code _ ("Unknown", "❓") Hin) as Hentry.
    pose proof (proj1 (forallb_forall _ _) WEATHER_CODE_MAP_entries_named _ Hentry) as Hn.
    cbn [fst snd] in Hn. apply andb_true_iff in Hn as [Hd Hg].
    apply negb_true_iff in Hd, Hg. apply String.eqb_neq in Hd, Hg. now split. }
  assert (Hdec : In code (map fst WEATHER_CODE_MAP) \/ ~ In code (map fst WEATHER_CODE_MAP)).
  { destruct (in_dec Z.eq_dec code (map fst WEATHER_CODE_MAP)); auto. }
  unfold code_to_desc, code_to_emoji in *.
  split; split; intros H.
  - intros Hin. now apply Hknown in Hin.
  - now rewrite code_map_get_absent.
  - intros Hin. now apply Hknown in Hin.
  - now rewrite code_map_get_absent.
Qed.

Lemma daily_to_df_shape (parse : list cell -> parsing) (p : payload) (df : DataFrame) :
  daily_to_df parse p = Ok df ->
  df = empty_frame
  \/ exists (aware : bool) (dates : list stamp) (hi lo code : list cell),
       df = mkDataFrame (Some "date") aware dates
              [ ("temp_max", hi); ("temp_min", lo); ("weathercode", code) ]
       /\ List.length hi = List.length dates
       /\ List.length lo = List.length dates
       /\ List.length code = List.length dates.
Proof.
  unfold daily_to_df. intros H.
  destruct (negb (nonempty _)).
  - left. now inversion H.
  - right.
    apply (proj1 (frame_of_block parse _ _ "date")) in H
      as (idx & fitted & _ & Ef & ->).
    cbn [fit_columns] in Ef.
    destruct (fit_column _ _) as [hi|] eqn:E1; [|discriminate].
    destruct (fit_column _ (dict_get_default "temperature_2m_min" _ _))
      as [lo|] eqn:E2; [|discriminate].
    destruct (fit_column _ (dict_get_default "weathercode" _ _))
      as [code|] eqn:E3; [|discriminate].
    inversion Ef; subst.
    apply fit_column_spec in E1 as [_ E1]. apply fit_column_spec in E2 as [_ E2].
    apply fit_column_spec in E3 as [_ E3].
    exists (tz_aware idx), (stamps idx), hi, lo, code. now repeat split.
Qed.

(** ** The 7-day table *)

Lemma table_rows_firstn (n : nat) (dates : list stamp) (emoji : list string)
  (hi lo : list cell) :
  table_rows (firstn n dates) (firstn n emoji) (firstn n hi) (firstn n lo)
  = firstn n (table_rows dates emoji hi lo).
Proof.
  unfold table_rows. now rewrite firstn_map, !combine_firstn.
Qed.

Lemma table_rows_dates (dates : list stamp) (emoji : list string) (hi lo : list cell) :
  List.length emoji = List.length dates ->
  List.length hi = List.length dates ->
  List.length lo = List.length dates ->
  map row_Date (table_rows dates emoji hi lo) = dates.
Proof.
  unfold table_rows. revert emoji hi lo.
  induction dates as [|d dates IH]; intros emoji hi lo He Hh Hl; [reflexivity|].
  destruct emoji as [|e emoji]; [discriminate|].
  destruct hi as [|h hi]; [discriminate|].
  destruct lo as [|l lo]; [discriminate|].
  cbn. f_equal. apply IH; [now inversion He|now inversion Hh|now inversion Hl].
Qed.

(** The table on a frame with the columns of [daily_to_df]. *)
Lemma show_daily_summary_daily (aware : bool) (dates : list stamp)
  (hi lo code : list cell) :
  let df := mkDataFrame (Some "date") aware dates
              [ ("temp_max", hi); ("temp_min", lo); ("weathercode", code) ] in
  show_daily_summary df
  = if nonempty dates then ([StTable (firstn 7 (days df))], Val tt)
    else ([StInfo "No daily data available."], Returned).
Proof.
  intros df. unfold show_daily_summary, df_empty, df.
  cbn [index columns nonempty negb orb]. rewrite orb_false_r.
  destruct dates as [|d dates]; [reflexivity|].
  cbn [nonempty negb].
  unfold days, head, index_column, column.
  cbn [index columns index_name map fst snd dict_get dict_get_default
       String.eqb Ascii.eqb Bool.eqb lift].
  rewrite <- table_rows_firstn, firstn_map. reflexivity.
Qed.

(** X3: on a daily series the table shows the first at most seven days, in
    series order, each with the glyph of its weather code; a series without
    days gives the placeholder instead, and nothing is raised. *)
Theorem table_shows_first_seven_days
  (parse : list cell -> parsing) (p : payload) (df : DataFrame) :
  daily_to_df parse p = Ok df ->
  map row_Date (days df) = index df
  /\ (List.length (firstn 7 (days df)) = Nat.min 7 (nrows df))%nat
  /\ (nrows df <> 0%nat ->
      show_daily_summary df = ([StTable (firstn 7 (days df))], Val tt))
  /\ (nrows df = 0%nat ->
      show_daily_summary df = ([StInfo "No daily data available."], Returned)).
Proof.
  intros H.
  apply daily_to_df_shape in H
    as [->|(aware & dates & hi & lo & code & -> & Hh & Hl & Hc)].
  - repeat split. intros Hne. now contradiction Hne.
  - assert (Hdates : map row_Date
                       (days (mkDataFrame (Some "date") aware dates
                                [ ("temp_max", hi); ("temp_min", lo);
                                  ("weathercode", code) ])) = dates).
    { unfold days. cbn. apply table_rows_dates; auto. now rewrite length_map. }
    split; [exact Hdates|]. split.
    { rewrite length_firstn. f_equal. rewrite <- (length_map row_Date), Hdates.
      reflexivity. }
    rewrite show_daily_summary_daily. unfold nrows. cbn [index].
    destruct dates; split; intros Hn; cbn in *; congruence.
Qed.

Lemma table_shows_first_seven_days_witness :
  show_daily_summary
    (mkDataFrame (Some "date") false [At 100; At 2500]
       [ ("temp_max", numbers [20; 21]); ("temp_min", numbers [10; 11]);
         ("weathercode", numbers [0; 3]) ])
  = ([StTable [ mkTableRow (At 100) "☀️" (CNum (20 # 1)) (CNum (10 # 1));
                mkTableRow (At 2500) "☁️" (CNum (21 # 1)) (CNum (11 # 1)) ]], Val tt).
Proof.
  pose proof (table_shows_first_seven_days sample_to_datetime sample_payload _ eq_refl)
    as (_ & _ & H & _).
  apply H. discriminate.
Defined.

(** ** The forecast client *)

Lemma fetch_weather_run (net : network) (lat lon : Q) (timezone : string)
  (units : option string) :
  fetch_weather net lat lon timezone units
  = ([HttpGet FORECAST_URL (forecast_params lat lon timezone units)],
     match forecast_api net (forecast_params lat lon timezone units) with
     | Raise e => Exc e
     | Ok resp =>
         match raise_for_status resp with
         | Raise e => Exc e
         | Ok _ =>
             match json resp with
             | Raise e => Exc e
             | Ok data => Val data
             end
         end
     end).
Proof.
  unfold fetch_weather. cbn.
  destruct (forecast_api net _) as [resp|e]; [|reflexivity]. cbn.
  destruct (raise_for_status resp) as [[]|e]; [|reflexivity]. cbn.
  destruct (json resp) as [data|e]; reflexivity.
Qed.

(** ** Runs, step by step *)

Lemma bind_run {A B : Type} (p : prog A) (f : A -> prog B) :
  bind p f
  = match ending p with
    | Val a => ((trace p ++ trace (f a))%list, ending (f a))
    | Exc e => (trace p, Exc e)
    | Returned => (trace p, Returned)
    end.
Proof.
  destruct p as [t [a|e|]]; cbn; [|reflexivity|reflexivity].
  now destruct (f a).
Qed.

Lemma requests_of_app (t u : list event) :
  requests_of (t ++ u) = (requests_of t ++ requests_of u)%list.
Proof. apply filter_app. Qed.

Lemma requests_bind {A B : Type} (p : prog A) (f : A -> prog B) :
  requests_of (trace (bind p f))
  = (requests_of (trace p)
       ++ match ending p with
          | Val a => requests_of (trace (f a))
          | _ => []
          end)%list.
Proof.
  rewrite bind_run. destruct (ending p); unfold trace at 1; cbn [fst].
  - apply requests_of_app.
  - now rewrite app_nil_r.
  - now rewrite app_nil_r.
Qed.

Lemma quiet_bind {A B : Type} (p : prog A) (f : A -> prog B) :
  requests_of (trace p) = [] ->
  (forall a, ending p = Val a -> requests_of (trace (f a)) = []) ->
  requests_of (trace (bind p f)) = [].
Proof.
  intros Hp Hf. rewrite requests_bind, Hp.
  destruct (ending p) as [a|e|]; [now apply Hf|reflexivity|reflexivity].
Qed.

Lemma quiet_call (p : prog unit) :
  requests_of (trace p) = [] -> requests_of (trace (call p)) = [].
Proof. unfold call. now destruct p as [t [[]|e|]]. Qed.

Lemma quiet_lift {A : Type} (r : result A) : requests_of (trace (lift r)) = [].
Proof. now destruct r. Qed.

(** Walks down a run that sends nothing. *)
Ltac step_quiet :=
  repeat (cbv beta zeta;
          lazymatch goal with
          | |- requests_of (trace (ret _)) = [] => reflexivity
          | |- requests_of (trace (emit _)) = [] => reflexivity
          | |- requests_of (trace return_) = [] => reflexivity
          | |- requests_of (trace (raise _)) = [] => reflexivity
          | |- requests_of (trace (lift _)) = [] => apply quiet_lift
          | |- requests_of (trace (call _)) = [] => apply quiet_call
          | |- requests_of (trace (bind _ _)) = [] => apply quiet_bind; [|intros]
          end).

Lemma render_current_card_quiet (p : payload) (label : string) :
  requests_of (trace (render_current_card p label)) = [].
Proof. unfold render_current_card. destruct (negb _); reflexivity. Qed.

Lemma draw_24h_chart_quiet (now : Z) (df : DataFrame) :
  requests_of (trace (draw_24h_chart now df)) = [].
Proof.
  unfold draw_24h_chart. destruct (df_empty df); [reflexivity|].
  step_quiet. destruct (df_empty _); [reflexivity|]. step_quiet.
Qed.

Lemma show_daily_summary_quiet (df : DataFrame) :
  requests_of (trace (show_daily_summary df)) = [].
Proof.
  unfold show_daily_summary. destruct (df_empty df); [reflexivity|]. step_quiet.
Qed.

Lemma select_place_quiet (matches : list place) (picked : nat) :
  requests_of (trace (select_place matches picked)) = [].
Proof.
  unfold select_place, st_selectbox. destruct (1 <? _)%nat; step_quiet.
Qed.

Lemma call_ending (p : prog unit) :
  ending (call p) = match ending p with Exc e => Exc e | _ => Val tt end.
Proof. now destruct p as [t [[]|e|]]. Qed.

(** ** The report *)

Lemma fetch_weather_pair (net : network) (lat lon : Q) (tz : string)
  (u : option string) :
  fetch_weather net lat lon tz u
  = ([HttpGet FORECAST_URL (forecast_params lat lon tz u)],
     ending (fetch_weather net lat lon tz u)).
Proof. now rewrite fetch_weather_run. Qed.

Lemma card_call_ending (p : payload) (label : string) :
  ending (call (render_current_card p label)) = Val tt.
Proof.
  rewrite call_ending. unfold render_current_card. now destruct (negb _).
Qed.

Lemma draw_call_ending (parse : list cell -> parsing) (p : payload) (df : DataFrame)
  (now : Z) :
  hourly_to_df parse p = Ok df ->
  index_tz_aware df = false \/ nrows df = 0%nat ->
  ending (call (draw_24h_chart now df)) = Val tt.
Proof.
  intros H Hnaive. rewrite call_ending.
  apply hourly_to_df_shape in H
    as [->|(aware & times & temp & feel & prec & code & -> & Ht & Hf)].
  - reflexivity.
  - destruct Hnaive as [Hnaive|Hrows].
    + cbn [index_tz_aware] in Hnaive. subst aware.
      rewrite (draw_24h_chart_hourly now times temp feel prec code Ht Hf).
      now destruct (upcoming now _).
    + unfold nrows in Hrows. cbn [index] in Hrows.
      destruct times; [|discriminate]. reflexivity.
Qed.

(** X7: when the forecast request fails, the report shows the selected
    place, the spinner and the error with its cause, then returns: no part
    of the forecast is rendered. *)
Theorem forecast_failure_is_reported
  (parse : list cell -> parsing) (net : network) (s : session)
  (units : option string) (tz_choice : string) (m : place) (lat lon : Q) (e : exn) :
  latitude m = Some lat ->
  longitude m = Some lon ->
  ending (fetch_weather net lat lon
            (if str_truthy (strip tz_choice) then strip tz_choice else "UTC") units)
  = Exc e ->
  report parse net s units tz_choice m
  = ((selected_lines m lat lon
        ++ [ StSpinner "Fetching weather...";
             forecast_request lat lon tz_choice units;
             StError [Lit "Weather fetch failed: "; StrExn e] ])%list,
     Returned).
Proof.
  intros Hlat Hlon Hfetch. unfold report. rewrite Hlat, Hlon.
  rewrite fetch_weather_pair, Hfetch. reflexivity.
Qed.

Lemma forecast_failure_is_reported_witness :
  ending (report sample_to_datetime net_forecast_down sample_session None "" london)
  = Returned.
Proof.
  rewrite (forecast_failure_is_reported sample_to_datetime net_forecast_down sample_session
             None "" london (515074 # 10000) (-1278 # 10000) (HTTPError 503)
             eq_refl eq_refl eq_refl).
  reflexivity.
Defined.

(** X8: a forecast without current weather, hourly block and daily block
    (each absent, null or empty) is rendered to the end: every section
    shows its placeholder and nothing is raised. *)
Theorem bare_forecast_renders_placeholders
  (parse : list cell -> parsing) (net : network) (s : session)
  (units : option string) (tz_choice : string) (m : place) (lat lon : Q)
  (p : payload) :
  latitude m = Some lat ->
  longitude m = Some lon ->
  ending (fetch_weather net lat lon
            (if str_truthy (strip tz_choice) then strip tz_choice else "UTC") units)
  = Val p ->
  current_weather p = None \/ current_weather p = Some [] ->
  hourly p = None \/ hourly p = Some [] ->
  daily p = None \/ daily p = Some [] ->
  report parse net s units tz_choice m
  = ((selected_lines m lat lon
        ++ [ StSpinner "Fetching weather...";
             forecast_request lat lon tz_choice units;
             StColumns;
             StInfo "No current weather found for this location.";
             StMarkdown "### Next 24 hours";
             StInfo "No hourly data available.";
             StMap lat lon;
             StMarkdown "### 7-day summary";
             StInfo "No daily data available.";
             StExpander "Raw full API response";
             StJson p ])%list,
     Val tt).
Proof.
  intros Hlat Hlon Hfetch Hcw Hh Hd. unfold report. rewrite Hlat, Hlon.
  rewrite fetch_weather_pair, Hfetch.
  destruct p as [cw h d]. cbn [current_weather hourly daily] in *.
  destruct Hcw as [-> | ->], Hh as [-> | ->], Hd as [-> | ->]; reflexivity.
Qed.

Lemma bare_forecast_renders_placeholders_witness :
  ending (report sample_to_datetime net_bare_forecast sample_session None "" london)
  = Val tt.
Proof.
  rewrite (bare_forecast_renders_placeholders sample_to_datetime net_bare_forecast
             sample_session None "" london (515074 # 10000) (-1278 # 10000)
             (mkPayload None None None)
             eq_refl eq_refl eq_refl (or_introl eq_refl) (or_introl eq_refl)
             (or_introl eq_refl)).
  reflexivity.
Defined.

Lemma ending_emit_bind {B : Type} (e : event) (q : prog B) :
  ending (bind (emit e) (fun _ => q)) = ending q.
Proof. now rewrite ending_bind. Qed.

Lemma ending_try_val {A : Type} (p : prog A) (h : exn -> prog A) (a : A) :
  ending p = Val a -> ending (try_except p h) = Val a.
Proof. destruct p as [t [x|e|]]; cbn; congruence. Qed.

(** X9: what the normalizers and the chart raise on a fetched forecast is
    not caught.  The report ends with the exception [hourly_to_df] raises;
    with [TypeError] when the hourly series has rows and an index that
    carries a timezone; and, when the hourly series has no timezone or no
    rows, with the exception [daily_to_df] raises. *)
Theorem rejected_forecast_escapes
  (parse : list cell -> parsing) (net : network) (s : session)
  (units : option string) (tz_choice : string) (m : place) (lat lon : Q)
  (p : payload) :
  latitude m = Some lat ->
  longitude m = Some lon ->
  ending (fetch_weather net lat lon
            (if str_truthy (strip tz_choice) then strip tz_choice else "UTC") units)
  = Val p ->
  (forall e : exn,
     hourly_to_df parse p = Raise e ->
     ending (report parse net s units tz_choice m) = Exc e)
  /\ (forall df : DataFrame,
        hourly_to_df parse p = Ok df ->
        index_tz_aware df = true -> nrows df <> 0%nat ->
        ending (report parse net s units tz_choice m) = Exc TypeError)
  /\ (forall (df : DataFrame) (e : exn),
        hourly_to_df parse p = Ok df ->
        index_tz_aware df = false \/ nrows df = 0%nat ->
        daily_to_df parse p = Raise e ->
        ending (report parse net s units tz_choice m) = Exc e).
Proof.
  intros Hlat Hlon Hfetch. unfold report. rewrite Hlat, Hlon.
  rewrite !ending_emit_bind, ending_bind.
  rewrite (ending_try_val _ _ _ Hfetch).
  rewrite ending_emit_bind, ending_bind, card_call_ending, ending_emit_bind.
  rewrite ending_bind. repeat split.
  - intros e Hh. now rewrite Hh.
  - intros df Hh Haware Hrows. rewrite Hh. cbn [lift ret ending snd].
    rewrite ending_bind, call_ending.
    apply hourly_to_df_shape in Hh
      as [->|(aware & times & temp & feel & prec & code & -> & Ht & Hf)];
      [discriminate Haware|].
    cbn [index_tz_aware] in Haware. subst aware.
    rewrite draw_24h_chart_aware; [reflexivity| |discriminate].
    intros ->. now apply Hrows.
  - intros df e Hh Hnaive Hd. rewrite Hh. cbn [lift ret ending snd].
    rewrite ending_bind, (draw_call_ending _ _ _ _ Hh Hnaive).
    rewrite ending_bind. cbn [try_except emit ending snd].
    now rewrite ending_emit_bind, ending_bind, Hd.
Qed.

Lemma rejected_forecast_escapes_witness :
  ending (report sample_to_datetime net_mismatch sample_session None "" london)
  = Exc ValueError.
Proof.
  apply (proj1 (rejected_forecast_escapes sample_to_datetime net_mismatch
                  sample_session None "" london (515074 # 10000) (-1278 # 10000)
                  hourly_10_8 eq_refl eq_refl eq_refl)).
  reflexivity.
Defined.

Lemma report_requests
  (parse : list cell -> parsing) (net : network) (s : session)
  (units : option string) (tz_choice : string) (m : place) :
  requests_of (trace (report parse net s units tz_choice m))
  = match latitude m, longitude m with
    | Some lat, Some lon => [forecast_request lat lon tz_choice units]
    | _, _ => []
    end.
Proof.
  unfold report.
  destruct (latitude m) as [lat|]; [|reflexivity].
  destruct (longitude m) as [lon|]; [|reflexivity].
  rewrite requests_bind. cbn [emit trace ending fst snd requests_of filter is_request app].
  rewrite requests_bind. cbn [emit trace ending fst snd requests_of filter is_request app].
  cbv zeta.
  rewrite requests_bind. cbn [emit trace ending fst snd requests_of filter is_request app].
  rewrite requests_bind, fetch_weather_pair.
  set (tz := if str_truthy (strip tz_choice) then strip tz_choice else "UTC").
  destruct (ending (fetch_weather net lat lon tz units)) as [p|e|]; try reflexivity.
  cbn [try_except trace ending fst snd requests_of filter is_request app].
  unfold forecast_request. fold tz. f_equal.
  step_quiet;
    auto using render_current_card_quiet, draw_24h_chart_quiet,
      show_daily_summary_quiet.
Qed.

(** ** Selecting among matches without coordinates *)

Lemma match_labels_missing (l : list place) :
  Exists (fun m => latitude m = None \/ longitude m = None) l ->
  match_labels l = Raise TypeError.
Proof.
  induction l as [|m l IH]; intros H; [inversion H|]. simpl.
  destruct (match_label m) as [label|e] eqn:Em.
  - inversion H as [? ? Hm|? ? Hl]; subst.
    + unfold match_label, format_f in Em.
      destruct Hm as [Hm|Hm]; rewrite Hm in Em; [discriminate|].
      destruct (latitude m); discriminate.
    + now rewrite (IH Hl).
  - now rewrite (match_label_raises _ _ Em).
Qed.

(** ** The whole run *)

Lemma geocode_city_some (net : network) (city : string) (n : Z) (l : list place) :
  ending (geocode_city net city n) = Val (Some l) -> l <> [].
Proof.
  rewrite geocode_city_run. unfold ending. cbn [snd].
  destruct (geocoding_api net _) as [resp|e]; [|discriminate].
  destruct (raise_for_status resp) as [[]|e]; [|discriminate].
  destruct (json resp) as [data|e]; [|discriminate].
  destruct (results data) as [[|m l']|]; intros H; inversion H. discriminate.
Qed.

(** The run up to the geocoding call, for a form that passes. *)
Lemma main_up_to_geocoding (parse : list cell -> parsing) (net : network) (s : session) :
  gate_open s = true ->
  submit_clicked s = true ->
  strip (city_typed s) <> "" ->
  main parse net s
  = bind (((page_header
              ++ (if str_truthy (getenv (WEATHER_APP_PASSWORD s) "")
                  then gate_prompt else [])
              ++ form_widgets)%list, Val tt))
      (fun _ =>
         matches <- find_matches net (city_typed s) ;;
         place <- select_place matches (match_picked s) ;;
         report parse net s
           (nth_error ["metric"; "imperial"] (Nat.min (units_picked s) 1))
           (timezone_typed s) place).
Proof.
  intros Hgate Hsubmit Hcity.
  assert (Hcity' : str_truthy (strip (city_typed s)) = true).
  { destruct (str_truthy _) eqn:E; [reflexivity|].
    now apply str_truthy_empty in E. }
  unfold main, gate_open in *.
  rewrite password_gate_run, form_run, Hsubmit, Hcity'.
  destruct (str_truthy (getenv _ _)); cbn [negb orb] in Hgate;
    try rewrite Hgate; cbn [bind emit fst snd app page_header gate_prompt];
    destruct (bind (find_matches net (city_typed s)) _); reflexivity.
Qed.

(** X10: when geocoding fails (transport, status or body), the run shows
    the error with its cause and returns; the geocoding request is the only
    one it sent. *)
Theorem geocoding_failure_is_reported
  (parse : list cell -> parsing) (net : network) (s : session) (e : exn) :
  gate_open s = true ->
  submit_clicked s = true ->
  strip (city_typed s) <> "" ->
  ending (geocode_city net (city_typed s) 5) = Exc e ->
  main parse net s
  = ((page_header
        ++ (if str_truthy (getenv (WEATHER_APP_PASSWORD s) "")
            then gate_prompt else [])
        ++ form_widgets
        ++ [ StSpinner "Geocoding...";
             geocoding_request (city_typed s);
             StError [Lit "Geocoding failed: "; StrExn e] ])%list, Returned)
  /\ requests_of (trace (main parse net s)) = [geocoding_request (city_typed s)].
Proof.
  intros Hgate Hsubmit Hcity Hgeo.
  assert (Hmain : main parse net s
    = ((page_header
          ++ (if str_truthy (getenv (WEATHER_APP_PASSWORD s) "")
              then gate_prompt else [])
          ++ form_widgets
          ++ [ StSpinner "Geocoding...";
               geocoding_request (city_typed s);
               StError [Lit "Geocoding failed: "; StrExn e] ])%list, Returned)).
  { rewrite main_up_to_geocoding by assumption.
    rewrite find_matches_run, Hgeo. cbn [bind].
    now rewrite <- !app_assoc. }
  split; [exact Hmain|]. rewrite Hmain. unfold trace. cbn [fst].
  destruct (str_truthy (getenv _ _)); reflexivity.
Qed.

Lemma geocoding_failure_is_reported_witness :
  requests_of (trace (main sample_to_datetime net_geocoding_down sample_session))
  = [geocoding_request "London"].
Proof.
  apply (geocoding_failure_is_reported sample_to_datetime net_geocoding_down sample_session
           (RequestException "connection refused")
           eq_refl eq_refl ltac:(discriminate) eq_refl).
Defined.

Lemma find_matches_ending (net : network) (city : string) :
  (forall e : exn, ending (find_matches net city) <> Exc e)
  /\ (forall l : list place,
        ending (find_matches net city) = Val l ->
        l <> [] /\ ending (geocode_city net city 5) = Val (Some l))
  /\ requests_of (trace (find_matches net city)) = [geocoding_request city].
Proof.
  rewrite find_matches_run. cbv zeta.
  destruct (ending (geocode_city net city 5)) as [[[|m l]|]|e|];
    (split; [intros e'; discriminate|split; [|reflexivity]]);
    intros l' H; try discriminate H.
  unfold ending in H. cbn [snd] in H. inversion H; subst.
  split; [discriminate|reflexivity].
Qed.

(** X13: until the button is clicked a run sends no request: past the
    gate it draws the form and the hint, then returns. *)
Theorem nothing_is_sent_before_submit
  (parse : list cell -> parsing) (net : network) (s : session) :
  submit_clicked s = false ->
  requests_of (trace (main parse net s)) = []
  /\ ending (main parse net s) = Returned
  /\ (gate_open s = true ->
      main parse net s
      = ((page_header
            ++ (if str_truthy (getenv (WEATHER_APP_PASSWORD s) "")
                then gate_prompt else [])
            ++ form_widgets
            ++ [StInfo "Type a city and click 'Get Weather' to fetch data."])%list,
         Returned)).
Proof.
  intros Hsubmit. unfold main, gate_open.
  rewrite password_gate_run, form_run, Hsubmit.
  destruct (str_truthy (getenv _ _)); [destruct (String.eqb _ _)|];
    repeat split; intros; try discriminate; reflexivity.
Qed.

Lemma nothing_is_sent_before_submit_witness :
  requests_of (trace (main sample_to_datetime net_two_matches idle_session)) = [].
Proof.
  apply (proj1 (nothing_is_sent_before_submit sample_to_datetime net_two_matches
                  idle_session eq_refl)).
Defined.

Lemma select_then_report_missing (parse : list cell -> parsing) (net : network)
  (s : session) (units : option string) (tz : string) (l : list place) :
  l <> [] ->
  Exists (fun m => latitude m = None \/ longitude m = None) l ->
  let run := place <- select_place l (match_picked s) ;;
             report parse net s units tz place in
  ending run = Exc TypeError /\ requests_of (trace run) = [].
Proof.
  intros Hne Hmiss run. unfold run.
  destruct (1 <? List.length l)%nat eqn:Elen.
  - unfold select_place. rewrite Elen, (match_labels_missing _ Hmiss).
    split; reflexivity.
  - destruct l as [|m [|m' rest]]; [congruence| |discriminate].
    inversion Hmiss as [? ? Hm|? ? Hrest]; subst; [|inversion Hrest].
    rewrite requests_bind, ending_bind, select_place_quiet.
    unfold select_place. cbn [List.length Nat.ltb Nat.leb list_item nth_error lift
                                ret ending snd app].
    rewrite report_requests. unfold report. rewrite ending_emit_bind.
    destruct Hm as [Hm|Hm]; rewrite Hm; [now split|].
    now destruct (latitude m).
Qed.

(** X14: when one of the matches that geocoding returned has no latitude
    or no longitude, the run raises [TypeError], whichever match is picked,
    and the geocoding request is the only one it sent. *)
Theorem match_without_coordinates_raises
  (parse : list cell -> parsing) (net : network) (s : session) (l : list place) :
  gate_open s = true ->
  submit_clicked s = true ->
  strip (city_typed s) <> "" ->
  ending (geocode_city net (city_typed s) 5) = Val (Some l) ->
  Exists (fun m => latitude m = None \/ longitude m = None) l ->
  ending (main parse net s) = Exc TypeError
  /\ requests_of (trace (main parse net s)) = [geocoding_request (city_typed s)].
Proof.
  intros Hgate Hsubmit Hcity Hgeo Hmiss.
  pose proof (geocode_city_some _ _ _ _ Hgeo) as Hne.
  assert (Hfind : ending (find_matches net (city_typed s)) = Val l).
  { rewrite find_matches_run, Hgeo. cbv zeta. destruct l; [congruence|reflexivity]. }
  destruct (select_then_report_missing parse net s
              (nth_error ["metric"; "imperial"] (Nat.min (units_picked s) 1))
              (timezone_typed s) l Hne Hmiss) as [Hend Hreq].
  rewrite main_up_to_geocoding by assumption. split.
  - rewrite ending_bind. unfold ending at 1. cbn [snd].
    rewrite ending_bind, Hfind. exact Hend.
  - rewrite requests_bind. unfold trace at 1, ending at 1. cbn [fst snd].
    replace (requests_of (page_header ++ _ ++ form_widgets)) with (@nil event)
      by (destruct (str_truthy (getenv _ _)); reflexivity).
    cbn [app]. rewrite requests_bind, Hfind, Hreq.
    now rewrite (proj2 (proj2 (find_matches_ending net _))).
Qed.

Lemma match_without_coordinates_raises_witness :
  ending (main sample_to_datetime net_london_and_nowhere sample_session) = Exc TypeError.
Proof.
  apply (match_without_coordinates_raises sample_to_datetime net_london_and_nowhere
           sample_session
           [london; nowhere] eq_refl eq_refl ltac:(discriminate) eq_refl).
  right. left. left. reflexivity.
Defined.


